(** * Job dispatch and dynamic pricing engine (balt-set.ru)

    A shallow embedding of [price_calculator.py] (the pricing engine), of
    the job lifecycle handlers of [main.py] and of the two Telegram bots,
    with the properties of the design specification stated and settled
    against that embedding.

    Conventions of the embedding:
    - a Python [float] is an IEEE 754 binary64 number ([Float.float]): every
      arithmetic operation rounds to nearest, ties to even, a decimal
      constant of the source ([1.15], [0.02], ...) is the double nearest to
      it, and [round(x, n)] rounds the exact binary value of [x];
    - a Python [int] is a [Z]; a Python number is an [int] or a [float]
      ([Py.num]) and arithmetic converts an [int] operand to [float] when
      the other operand is a [float], as the interpreter does;
    - an exception that leaves a function is an error result ([Py.res]);
    - a Python [str] that is scanned character by character is a list of
      Unicode code points ([Text.str]); text that is only stored or compared
      (SQL TEXT columns, dictionary keys) is a [string];
    - a dictionary with string keys is a [gmap string _]; a dictionary whose
      iteration order matters is an association list in insertion order;
    - the SQLite database is an explicit state [Db] threaded through the
      handlers; an [HTTPException] is an error result.  A REAL column holds
      a binary64 number or NULL: SQLite stores a NaN as NULL. *)

From Stdlib Require Import ZArith QArith Qcanon Qround Lia Ascii String.
From Stdlib Require SpecFloat.
From stdpp Require Import base strings list gmap.

(** ** Exact numbers *)

Module Num.

Definition qz (z : Z) : Qc := Q2Qc (inject_Z z).

(** [ratio n d] is the rational [n/d]. *)
Definition ratio (n : Z) (d : positive) : Qc := Q2Qc (n # d).

(** Nearest integer, a tie going to the even neighbour. *)
Definition round_half_even (x : Qc) : Z :=
  let f := Qfloor x in
  match Qccompare (x - qz f) (ratio 1 2) with
  | Lt => f
  | Gt => (f + 1)%Z
  | Eq => if Z.even f then f else (f + 1)%Z
  end.

End Num.

(** ** Binary64 floating point *)

Module Float.
Import SpecFloat.
Local Open Scope Z_scope.

(** A double: a signed zero, an infinity, NaN, or [(-1)^s * m * 2^e]. *)
Definition float : Type := spec_float.

Definition prec : Z := 53.
Definition emax : Z := 1024.

(** The terms that are doubles: a finite one has its mantissa of 53 bits,
    or fewer at the smallest exponent, and its exponent in range.  The
    operations below return such terms when given such terms. *)
Definition valid (x : float) : Prop := valid_binary prec emax x = true.

Definition fadd : float -> float -> float := SFadd prec emax.
Definition fsub : float -> float -> float := SFsub prec emax.
Definition fmul : float -> float -> float := SFmul prec emax.

(** [x == y], [x < y], [x <= y]: false whenever an operand is NaN. *)
Definition eqb : float -> float -> bool := SFeqb.
Definition ltb : float -> float -> bool := SFltb.
Definition leb : float -> float -> bool := SFleb.

Definition is_nan (x : float) : bool :=
  match x with S754_nan => true | _ => false end.

Definition is_zero (x : float) : bool :=
  match x with S754_zero _ => true | _ => false end.

(** The double nearest to the integer [n]. *)
Definition of_Z (n : Z) : float := binary_normalize prec emax n 0 false.

(** The double nearest to [n/d], for [n >= 0], with the sign [s]: the
    quotient is cut at the precision of the result and rounded on the
    remainder, as the division of two doubles is. *)
Definition nearest (s : bool) (n : Z) (d : positive) : float :=
  match n with
  | Zpos _ =>
    let '(m, e, l) := SFdiv_core_binary prec emax n 0 (Zpos d) 0 in
    binary_round_aux prec emax s m e l
  | _ => S754_zero s
  end.

(** A decimal constant of the source: [dec 115 2] is the double that the
    literal [1.15] denotes, the one nearest to [115 / 10^2]. *)
Definition dec (m : Z) (k : Z) : float :=
  nearest (m <? 0) (Z.abs m) (Z.to_pos (10 ^ k)).

(** Nearest integer to [n/d] for [d > 0], ties to even. *)
Definition div_half_even (n d : Z) : Z :=
  let (q, r) := Z.div_eucl n d in
  match Z.compare (2 * r) d with
  | Lt => q
  | Gt => q + 1
  | Eq => if Z.even q then q else q + 1
  end.

(** Python's [round(x, ndigits)] on a float.  The interpreter writes the
    exact binary value of [x] in decimal, rounds it correctly at [ndigits]
    places (a tie, which needs [x] to lie exactly half way, goes to the even
    digit) and reads the decimal back as the nearest double.  Infinities,
    NaN and zeros are returned as they are, and the sign is kept.  For the
    two values of [ndigits] the source uses, 2 and -1, the rounded decimal
    is within 5 of [x] and never too large for a double, so the
    OverflowError of the interpreter cannot occur. *)
Definition fround (x : float) (ndigits : Z) : float :=
  match x with
  | S754_finite s m e =>
    let num := Zpos m * 2 ^ Z.max e 0 * 10 ^ Z.max ndigits 0 in
    let den := 2 ^ Z.max (- e) 0 * 10 ^ Z.max (- ndigits) 0 in
    let k := div_half_even num den in
    nearest s (k * 10 ^ Z.max (- ndigits) 0) (Z.to_pos (10 ^ Z.max ndigits 0))
  | _ => x
  end.

(** The exact value of a finite double. *)
Definition value (x : float) : option Qc :=
  match x with
  | S754_zero _ => Some (Num.qz 0)
  | S754_finite s m e =>
    let v := Qmult (inject_Z (Zpos m)) (Qpower 2 e) in
    Some (Q2Qc (if s then Qopp v else v))
  | _ => None
  end.

(** [x] against the integer [n], compared exactly. *)
Definition compare_Z (x : float) (n : Z) : option comparison :=
  match x with
  | S754_nan => None
  | S754_infinity s => Some (if s then Lt else Gt)
  | S754_zero _ => Some (Z.compare 0 n)
  | S754_finite s m e =>
    let v := if s then Zneg m else Zpos m in
    Some (Z.compare (v * 2 ^ Z.max e 0) (n * 2 ^ Z.max (- e) 0))
  end.

End Float.

(** ** Python numbers and exceptions *)

Module Py.
Import Float.
Local Open Scope Z_scope.

Inductive exn := ValueError | KeyError | OverflowError.

(** The outcome of a call: the exception that left it, or its value. *)
Abbreviation res := (sum exn).

#[global] Instance res_ret : MRet res := fun A a => inr a.

#[global] Instance res_bind : MBind res :=
  fun A B f m => match m with inl e => inl e | inr a => f a end.

#[global] Instance res_fmap : FMap res :=
  fun A B f m => match m with inl e => inl e | inr a => inr (f a) end.

Definition raise {A} (e : exn) : res A := inl e.

Inductive num := Int (n : Z) | Flt (x : float).

(** [float(n)]: the nearest double, or OverflowError when that is beyond
    the largest double, that is from [2^1024 - 2^970] on. *)
Definition float_of_int (n : Z) : res float :=
  if Z.abs n <? 2 ^ 1024 - 2 ^ 970 then mret (of_Z n)
  else raise OverflowError.

Definition as_float (a : num) : res float :=
  match a with
  | Int n => float_of_int n
  | Flt x => mret x
  end.

(** A binary operation: on two ints it is the integer operation; otherwise
    both operands are taken as floats. *)
Definition binop (fz : Z -> Z -> Z) (ff : float -> float -> float)
    (a b : num) : res num :=
  match a, b with
  | Int m, Int n => mret (Int (fz m n))
  | _, _ => x ← as_float a; y ← as_float b; mret (Flt (ff x y))
  end.

Definition add : num -> num -> res num := binop Z.add Float.fadd.
Definition sub : num -> num -> res num := binop Z.sub Float.fsub.
Definition mul : num -> num -> res num := binop Z.mul Float.fmul.

(** Comparison is exact, also between an int and a float; with a NaN every
    ordering test is false. *)
Definition compare (a b : num) : option comparison :=
  match a, b with
  | Int m, Int n => Some (Z.compare m n)
  | Flt x, Int n => compare_Z x n
  | Int m, Flt y => CompOpp <$> compare_Z y m
  | Flt x, Flt y => SpecFloat.SFcompare x y
  end.

Definition gt (a b : num) : bool :=
  match compare a b with Some Gt => true | _ => false end.

Definition lt (a b : num) : bool :=
  match compare a b with Some Lt => true | _ => false end.

(** [round(a, ndigits)]: an int is rounded as an int (and is unchanged for
    [ndigits >= 0]), a float as a float. *)
Definition round (a : num) (ndigits : Z) : num :=
  match a with
  | Int n =>
    if 0 <=? ndigits then Int n
    else Int (div_half_even n (10 ^ (- ndigits)) * 10 ^ (- ndigits))
  | Flt x => Flt (Float.fround x ndigits)
  end.

(** The exact value of a number, if it is finite. *)
Definition exact (a : num) : option Qc :=
  match a with
  | Int n => Some (Num.qz n)
  | Flt x => Float.value x
  end.

(** A number that arithmetic can take as a float: any float, and an int
    that is not astronomically large. *)
Definition small (a : num) : Prop :=
  match a with
  | Int n => Z.abs n < 10 ^ 305
  | Flt _ => True
  end.

End Py.
(** ** Text *)

Module Text.

(** A Python [str]: a sequence of code points. *)
Definition str := list N.

(** Decoder from the UTF-8 bytes of a Rocq string literal, so that the
    Cyrillic literals of the source can be written as they are. *)
Fixpoint utf8_decode (bs : list N) : str :=
  match bs with
  | [] => []
  | b0 :: r0 =>
    if (b0 <? 128)%N then b0 :: utf8_decode r0
    else
      match r0 with
      | [] => []
      | b1 :: r1 =>
        if (b0 <? 224)%N
        then ((b0 - 192) * 64 + (b1 - 128))%N :: utf8_decode r1
        else
          match r1 with
          | [] => []
          | b2 :: r2 =>
            if (b0 <? 240)%N
            then ((b0 - 224) * 4096 + (b1 - 128) * 64 + (b2 - 128))%N
                   :: utf8_decode r2
            else
              match r2 with
              | [] => []
              | b3 :: r3 =>
                ((b0 - 240) * 262144 + (b1 - 128) * 4096
                 + (b2 - 128) * 64 + (b3 - 128))%N :: utf8_decode r3
              end
          end
      end
  end.

Fixpoint bytes_of_string (s : string) : list N :=
  match s with
  | EmptyString => []
  | String a s' => N_of_ascii a :: bytes_of_string s'
  end.

Definition of_string (s : string) : str := utf8_decode (bytes_of_string s).

(** [str.lower()] restricted to the alphabets the source works with:
    Basic Latin and the Cyrillic block.  Other code points are left as
    they are. *)
Definition lower_char (c : N) : N :=
  if ((65 <=? c) && (c <=? 90))%N then (c + 32)%N
  else if ((1040 <=? c) && (c <=? 1071))%N then (c + 32)%N
  else if ((1024 <=? c) && (c <=? 1039))%N then (c + 80)%N
  else c.

Definition lower (s : str) : str := map lower_char s.

Fixpoint starts_with (sub s : str) : bool :=
  match sub, s with
  | [], _ => true
  | _ :: _, [] => false
  | a :: sub', b :: s' => (a =? b)%N && starts_with sub' s'
  end.

(** [sub in s] *)
Fixpoint contains (sub s : str) : bool :=
  starts_with sub s ||
  match s with
  | [] => false
  | _ :: s' => contains sub s'
  end.

(** [s.count(sub)] for a non-empty [sub]: occurrences found left to right,
    the scan resuming after each one (no overlaps).  [skip] is the number
    of characters of the last occurrence still to be passed over. *)
Fixpoint count_from (sub : str) (skip : nat) (s : str) : Z :=
  match s with
  | [] => 0
  | _ :: s' =>
    match skip with
    | S k => count_from sub k s'
    | O =>
      if starts_with sub s
      then (1 + count_from sub (pred (length sub)) s')%Z
      else count_from sub O s'
    end
  end.

Definition count (s sub : str) : Z := count_from sub O s.

Definition len (s : str) : Z := Z.of_nat (length s).

(** [any(word in s for word in words)] *)
Definition any_in (words : list str) (s : str) : bool :=
  existsb (fun w => contains w s) words.

End Text.

(** ** The pricing engine ([price_calculator.py]) *)

Module Pricing.
Import Float Py.

Inductive ServiceCategory :=
| ELECTRICAL | PLUMBING | APPLIANCE | GENERAL | HVAC | EMERGENCY.

Inductive Urgency := NORMAL | URGENT | URGENCY_EMERGENCY.

Inductive TimeOfDay := MORNING | DAY | EVENING | NIGHT.

(** The source spells the third member with a Cyrillic last letter; the
    name is transliterated here. *)
Inductive District :=
| CENTER | LENINGRADSKY | MOSKOVSKY | OKTYABRSKY | BALTIKA | SVETLOGORSK.

Record PriceFactors := mkPriceFactors {
  category : ServiceCategory;
  urgency : Urgency;
  time_of_day : TimeOfDay;
  district : District;
  description : Text.str;
  estimated_hours : float;
  complexity : Z;
  materials_needed : bool;
  high_voltage : bool;
  height_work : bool;
  outdoors : bool;
  outlets : Z;
  switches : Z;
  chandeliers : Z;
  distance_km : float
}.

(** The dataclass defaults: only [category] is mandatory. *)
Definition default_factors (c : ServiceCategory) : PriceFactors :=
  {| category := c; urgency := NORMAL; time_of_day := DAY;
     district := CENTER; description := []; estimated_hours := dec 10 1;
     complexity := 1; materials_needed := false; high_voltage := false;
     height_work := false; outdoors := false; outlets := 0; switches := 0;
     chandeliers := 0; distance_km := dec 0 1 |}.

Definition BASE_PRICES (c : ServiceCategory) : gmap string Z :=
  match c with
  | ELECTRICAL =>
      list_to_map
        [("base", 1500); ("outlet_install", 350); ("outlet_wiring", 850);
         ("switch_install", 300); ("switch_wiring", 1500);
         ("chandelier", 1000); ("panel_work", 3000)]%Z
  | PLUMBING =>
      list_to_map
        [("base", 1800); ("faucet", 800); ("sink", 1500); ("toilet", 2000);
         ("pipe_repair", 1200)]%Z
  | APPLIANCE =>
      list_to_map
        [("base", 2000); ("washing_machine", 1500); ("dishwasher", 1800);
         ("refrigerator", 2500); ("oven", 2200)]%Z
  | GENERAL =>
      list_to_map [("base", 1200); ("repair", 800); ("installation", 1000)]%Z
  | HVAC =>
      list_to_map
        [("base", 3000); ("ac_install", 4000); ("ac_service", 2000);
         ("ventilation", 3500)]%Z
  | EMERGENCY => list_to_map [("base", 2500)]%Z
  end.

Definition URGENCY_MULTIPLIERS (u : Urgency) : float :=
  match u with
  | NORMAL => dec 10 1
  | URGENT => dec 15 1
  | URGENCY_EMERGENCY => dec 20 1
  end.

Definition TIME_MULTIPLIERS (t : TimeOfDay) : float :=
  match t with
  | MORNING => dec 10 1
  | DAY => dec 10 1
  | EVENING => dec 12 1
  | NIGHT => dec 15 1
  end.

Definition DISTRICT_MULTIPLIERS (d : District) : float :=
  match d with
  | CENTER => dec 10 1
  | LENINGRADSKY => dec 105 2
  | MOSKOVSKY => dec 105 2
  | OKTYABRSKY => dec 105 2
  | BALTIKA => dec 11 1
  | SVETLOGORSK => dec 12 1
  end.

Definition VOLUME_DISCOUNTS : list (Z * float) :=
  [(21%Z, dec 20 2); (11%Z, dec 15 2); (6%Z, dec 10 2); (3%Z, dec 5 2)].

(** [base *= k if flag] *)
Definition scale_if (flag : bool) (k : float) (base : num) : res num :=
  if flag then Py.mul base (Flt k) else mret base.

Definition _get_base_price (factors : PriceFactors) : res num :=
  let category_prices := BASE_PRICES (category factors) in
  let base := Int (default 1500%Z (category_prices !! "base")) in
  base ←
    (if (complexity factors >? 1)%Z
     then
       k ← Py.mul (Int (complexity factors - 1)) (Flt (dec 2 1));
       k ← Py.add (Int 1) k;
       Py.mul base k
     else mret base);
  base ←
    (if Py.gt (Flt (estimated_hours factors)) (Int 1)
     then
       h ← Py.sub (Flt (estimated_hours factors)) (Int 1);
       h ← Py.mul h (Int 800);
       Py.add base h
     else mret base);
  base ← scale_if (materials_needed factors) (dec 115 2) base;
  base ← scale_if (high_voltage factors) (dec 13 1) base;
  base ← scale_if (height_work factors) (dec 125 2) base;
  base ← scale_if (outdoors factors) (dec 12 1) base;
  mret base.

(** [prices[key]]: a missing key raises [KeyError]. *)
Definition getitem (prices : gmap string Z) (key : string) : res Z :=
  match prices !! key with
  | Some v => mret v
  | None => raise KeyError
  end.

Definition _calculate_points_price (factors : PriceFactors) : res Z :=
  match category factors with
  | ELECTRICAL =>
    let prices := BASE_PRICES ELECTRICAL in
    let total := 0%Z in
    total ←
      (if (outlets factors >? 0)%Z then
         outlet_price ← getitem prices "outlet_install";
         outlet_price ←
           (if materials_needed factors
            then w ← getitem prices "outlet_wiring"; mret (outlet_price + w)%Z
            else mret outlet_price);
         mret (total + outlet_price * outlets factors)%Z
       else mret total);
    total ←
      (if (switches factors >? 0)%Z then
         switch_price ← getitem prices "switch_install";
         switch_price ←
           (if materials_needed factors
            then w ← getitem prices "switch_wiring"; mret (switch_price + w)%Z
            else mret switch_price);
         mret (total + switch_price * switches factors)%Z
       else mret total);
    total ←
      (if (chandeliers factors >? 0)%Z then
         p ← getitem prices "chandelier";
         mret (total + p * chandeliers factors)%Z
       else mret total);
    mret total
  | _ => mret 0%Z
  end.

(** The multipliers dictionary, in insertion order (the order in which
    [calculate] multiplies them in). *)
Definition _calculate_multipliers (factors : PriceFactors)
  : list (string * float) :=
  let multipliers := [] in
  let urgency_mult := URGENCY_MULTIPLIERS (urgency factors) in
  let multipliers :=
    if negb (Float.eqb urgency_mult (dec 10 1))
    then multipliers ++ [("urgency"%string, urgency_mult)] else multipliers in
  let time_mult := TIME_MULTIPLIERS (time_of_day factors) in
  let multipliers :=
    if negb (Float.eqb time_mult (dec 10 1))
    then multipliers ++ [("time_of_day"%string, time_mult)] else multipliers in
  let district_mult := DISTRICT_MULTIPLIERS (district factors) in
  let multipliers :=
    if negb (Float.eqb district_mult (dec 10 1))
    then multipliers ++ [("district"%string, district_mult)] else multipliers in
  let multipliers :=
    if Py.gt (Flt (distance_km factors)) (Int 10)
    then
      let km_mult :=
        Float.fadd (dec 10 1)
          (Float.fmul (Float.fsub (distance_km factors) (of_Z 10)) (dec 2 2)) in
      multipliers ++ [("distance"%string, km_mult)]
    else multipliers in
  multipliers.

Fixpoint volume_discount_in (table : list (Z * float)) (total_points : Z)
  : float :=
  match table with
  | [] => dec 0 1
  | (min_points, discount) :: rest =>
    if (total_points >=? min_points)%Z then discount
    else volume_discount_in rest total_points
  end.

Definition _get_volume_discount (total_points : Z) : float :=
  volume_discount_in VOLUME_DISCOUNTS total_points.

Record InstallationPoints := {
  ip_outlets : Z;
  ip_switches : Z;
  ip_chandeliers : Z;
  ip_total_price : num
}.

Record Breakdown := {
  base_service : num;
  installation_points : option InstallationPoints;
  materials_included : bool
}.

Definition _get_breakdown (factors : PriceFactors) (base points : num)
  : Breakdown :=
  {| base_service := Py.round base 2;
     installation_points :=
       if Py.gt points (Int 0)
       then Some {| ip_outlets := outlets factors;
                    ip_switches := switches factors;
                    ip_chandeliers := chandeliers factors;
                    ip_total_price := Py.round points 2 |}
       else None;
     materials_included := materials_needed factors |}.

(** The dictionary [calculate] returns. *)
Record PriceResult := {
  base_price : num;
  points_price : num;
  subtotal : num;
  total_price : num;
  discount_percent : num;
  discount_amount : num;
  multipliers : list (string * float);
  breakdown : Breakdown
}.

(** Factors whose integer fields are far from the range where the
    conversion of an int to a float fails. *)
Definition in_range (factors : PriceFactors) : Prop :=
  Forall (fun n => (Z.abs n < 10 ^ 300)%Z)
    [complexity factors; outlets factors; switches factors;
     chandeliers factors].

(** [for name, mult in multipliers.items(): price *= mult] *)
Fixpoint apply_multipliers (price : num) (ms : list (string * float))
  : res num :=
  match ms with
  | [] => mret price
  | (_, mult) :: rest =>
    price ← Py.mul price (Flt mult);
    apply_multipliers price rest
  end.

Definition calculate (factors : PriceFactors) : res PriceResult :=
  base_price ← _get_base_price factors;
  points ← _calculate_points_price factors;
  let points_price := Int points in
  subtotal ← Py.add base_price points_price;
  let multipliers := _calculate_multipliers factors in
  price_with_multipliers ← apply_multipliers subtotal multipliers;
  let total_points :=
    (outlets factors + switches factors + chandeliers factors)%Z in
  let discount_percent := Flt (_get_volume_discount total_points) in
  discount_amount ← Py.mul price_with_multipliers discount_percent;
  final_price ← Py.sub price_with_multipliers discount_amount;
  let final_price := Py.round final_price (-1) in
  percent ← Py.mul discount_percent (Int 100);
  mret {| base_price := Py.round base_price 2;
          points_price := Py.round points_price 2;
          subtotal := Py.round subtotal 2;
          total_price := Py.round final_price 2;
          discount_percent := percent;
          discount_amount := Py.round discount_amount 2;
          multipliers :=
            map (fun kv => (fst kv, Float.fround (snd kv) 2)) multipliers;
          breakdown := _get_breakdown factors base_price points_price |}.

(** *** Quick templates *)

(** The module-level dictionary [QUICK_TEMPLATES].  Its values are mutable
    objects shared by every call, so the dictionary is part of the state:
    [get_quick_price] reads and writes it. *)
Definition QUICK_TEMPLATES : gmap string PriceFactors :=
  list_to_map
    [("outlet_single",
      {| category := ELECTRICAL; urgency := NORMAL; time_of_day := DAY;
         district := CENTER;
         description := Text.of_string "Установка одной розетки";
         estimated_hours := dec 10 1; complexity := 1;
         materials_needed := false; high_voltage := false;
         height_work := false; outdoors := false;
         outlets := 1; switches := 0; chandeliers := 0;
         distance_km := dec 0 1 |});
     ("outlet_block_3",
      {| category := ELECTRICAL; urgency := NORMAL; time_of_day := DAY;
         district := CENTER;
         description := Text.of_string "Установка блока из 3 розеток";
         estimated_hours := dec 10 1; complexity := 1;
         materials_needed := true; high_voltage := false;
         height_work := false; outdoors := false;
         outlets := 3; switches := 0; chandeliers := 0;
         distance_km := dec 0 1 |});
     ("chandelier",
      {| category := ELECTRICAL; urgency := NORMAL; time_of_day := DAY;
         district := CENTER;
         description := Text.of_string "Установка люстры";
         estimated_hours := dec 10 1; complexity := 1;
         materials_needed := false; high_voltage := false;
         height_work := false; outdoors := false;
         outlets := 0; switches := 0; chandeliers := 1;
         distance_km := dec 0 1 |});
     ("washing_machine",
      {| category := APPLIANCE; urgency := NORMAL; time_of_day := DAY;
         district := CENTER;
         description := Text.of_string "Подключение стиральной машины";
         estimated_hours := dec 15 1; complexity := 1;
         materials_needed := false; high_voltage := false;
         height_work := false; outdoors := false;
         outlets := 0; switches := 0; chandeliers := 0;
         distance_km := dec 0 1 |});
     ("ac_install",
      {| category := HVAC; urgency := NORMAL; time_of_day := DAY;
         district := CENTER;
         description := Text.of_string "Установка кондиционера";
         estimated_hours := dec 30 1; complexity := 3;
         materials_needed := false; high_voltage := false;
         height_work := true; outdoors := false;
         outlets := 0; switches := 0; chandeliers := 0;
         distance_km := dec 0 1 |});
     ("emergency_electrical",
      {| category := EMERGENCY; urgency := URGENCY_EMERGENCY;
         time_of_day := DAY; district := CENTER;
         description := Text.of_string "Экстренный вызов электрика";
         estimated_hours := dec 10 1; complexity := 1;
         materials_needed := false; high_voltage := false;
         height_work := false; outdoors := false;
         outlets := 0; switches := 0; chandeliers := 0;
         distance_km := dec 0 1 |})].

(** One keyword argument of [get_quick_price].  A key that names a field
    carries a value of that field's type; [kw_other] is a key for which
    [hasattr(template, key)] is false.  Keys that name other attributes of
    the object (its methods) are not modelled. *)
Inductive kwarg :=
| kw_category (v : ServiceCategory)
| kw_urgency (v : Urgency)
| kw_time_of_day (v : TimeOfDay)
| kw_district (v : District)
| kw_description (v : Text.str)
| kw_estimated_hours (v : float)
| kw_complexity (v : Z)
| kw_materials_needed (v : bool)
| kw_high_voltage (v : bool)
| kw_height_work (v : bool)
| kw_outdoors (v : bool)
| kw_outlets (v : Z)
| kw_switches (v : Z)
| kw_chandeliers (v : Z)
| kw_distance_km (v : float)
| kw_other (key : string).

(** [if hasattr(template, key): setattr(template, key, value)] *)
Definition setattr (t : PriceFactors) (kw : kwarg) : PriceFactors :=
  let '(mkPriceFactors c u td d ds h cx m hv hw od o s ch km) := t in
  match kw with
  | kw_category v => mkPriceFactors v u td d ds h cx m hv hw od o s ch km
  | kw_urgency v => mkPriceFactors c v td d ds h cx m hv hw od o s ch km
  | kw_time_of_day v => mkPriceFactors c u v d ds h cx m hv hw od o s ch km
  | kw_district v => mkPriceFactors c u td v ds h cx m hv hw od o s ch km
  | kw_description v => mkPriceFactors c u td d v h cx m hv hw od o s ch km
  | kw_estimated_hours v => mkPriceFactors c u td d ds v cx m hv hw od o s ch km
  | kw_complexity v => mkPriceFactors c u td d ds h v m hv hw od o s ch km
  | kw_materials_needed v => mkPriceFactors c u td d ds h cx v hv hw od o s ch km
  | kw_high_voltage v => mkPriceFactors c u td d ds h cx m v hw od o s ch km
  | kw_height_work v => mkPriceFactors c u td d ds h cx m hv v od o s ch km
  | kw_outdoors v => mkPriceFactors c u td d ds h cx m hv hw v o s ch km
  | kw_outlets v => mkPriceFactors c u td d ds h cx m hv hw od v s ch km
  | kw_switches v => mkPriceFactors c u td d ds h cx m hv hw od o v ch km
  | kw_chandeliers v => mkPriceFactors c u td d ds h cx m hv hw od o s v km
  | kw_distance_km v => mkPriceFactors c u td d ds h cx m hv hw od o s ch v
  | kw_other _ => t
  end.

(** [get_quick_price(template_name, **kwargs)] on the shared templates
    [ts]: the outcome of the call and the templates after it.  The loop
    over [kwargs] assigns to the template object held by the dictionary. *)
Definition get_quick_price (template_name : string) (kwargs : list kwarg)
    (ts : gmap string PriceFactors)
  : res PriceResult * gmap string PriceFactors :=
  match ts !! template_name with
  | None => (raise ValueError, ts)
  | Some template =>
    let template := fold_left setattr kwargs template in
    let ts := <[template_name := template]> ts in
    (calculate template, ts)
  end.

(** *** Estimation from a free-text description *)

Definition kw (s : string) : Text.str := Text.of_string s.

Definition estimate_factors (description category : Text.str)
  : PriceFactors :=
  let desc_lower := Text.lower description in
  let service_category :=
    if bool_decide (category = kw "plumbing")
       || Text.any_in [kw "кран"; kw "труба"; kw "слив"; kw "сантехника"]
            desc_lower
    then PLUMBING
    else if bool_decide (category = kw "appliance")
       || Text.any_in [kw "стиральная"; kw "холодильник"; kw "техника"]
            desc_lower
    then APPLIANCE
    else if bool_decide (category = kw "hvac")
       || Text.any_in [kw "кондиционер"; kw "вентиляция"] desc_lower
    then HVAC
    else ELECTRICAL in
  let urgency :=
    if Text.any_in [kw "срочно"; kw "сейчас"; kw "экстренно"; kw "горит"]
         desc_lower
    then
      if Text.contains (kw "экстренно") desc_lower
         || Text.contains (kw "горит") desc_lower
      then URGENCY_EMERGENCY else URGENT
    else NORMAL in
  let outlets := Text.count desc_lower (kw "розетк") in
  let switches := Text.count desc_lower (kw "выключател") in
  let chandeliers := Text.count desc_lower (kw "люстр") in
  let complexity :=
    if (Text.len description >? 200)%Z then 3%Z
    else if (Text.len description >? 100)%Z then 2%Z
    else 1%Z in
  let '(complexity, high_voltage) :=
    if Text.any_in [kw "щит"; kw "автомат"; kw "380"; kw "трёхфазн"]
         desc_lower
    then (Z.max complexity 4, true)
    else (complexity, false) in
  let estimated_hours := dec 10 1 in
  let estimated_hours :=
    if (outlets + switches >? 5)%Z then dec 20 1 else estimated_hours in
  let estimated_hours :=
    if (complexity >=? 3)%Z then Float.fadd estimated_hours (dec 10 1)
    else estimated_hours in
  {| category := service_category;
     urgency := urgency;
     time_of_day := DAY;
     district := CENTER;
     description := description;
     estimated_hours := estimated_hours;
     complexity := complexity;
     materials_needed :=
       match urgency with NORMAL => true | _ => false end;
     high_voltage := high_voltage;
     height_work := false;
     outdoors := false;
     outlets := outlets;
     switches := switches;
     chandeliers := chandeliers;
     distance_km := dec 0 1 |}.

(** [estimate_from_description]: the factors are built from the text and
    priced by [calculate]. *)
Definition estimate_from_description (description category : Text.str)
  : res PriceResult :=
  calculate (estimate_factors description category).

End Pricing.

(** ** The platform back end ([main.py]) *)

Module Platform.
Import Float Py.
Local Open Scope Z_scope.

(** *** Tables *)

(** A row of [masters].  [specializations] is the list whose JSON text the
    column stores. *)
Record Master := {
  full_name : string;
  phone : string;
  specializations : list string;
  city : string;
  preferred_channel : string;
  rating : float;
  is_active : bool;
  terminal_active : bool;
  master_created_at : Z
}.

(** A row of [jobs]; the primary key is the key of the table.  A column
    that may be NULL is an [option]; the latitude and longitude are taken to
    be numbers. *)
Record Job := mkJob {
  client_name : string;
  client_phone : string;
  category : string;
  problem_description : string;
  address : string;
  estimated_price : option float;
  status : string;
  master_id : option Z;
  created_at : Z;
  master_departed_at : option Z;
  master_arrived_at : option Z;
  client_phone_revealed : bool;
  master_location_lat : option float;
  master_location_lon : option float;
  route_screenshot_url : option string;
  google_calendar_event_id : option string;
  google_task_id : option string
}.

Record Transaction := {
  transaction_id : Z;
  job_id : Z;
  amount : float;
  payment_method : string;
  platform_fee : option float;
  master_earnings : option float;
  transaction_status : string;
  transaction_created_at : Z
}.

(** The database.  [*_seq] is the largest key an AUTOINCREMENT table has
    handed out.  Foreign keys are declared in the schema but SQLite does
    not enforce them on a connection that has not switched them on, and
    [get_db_connection] does not. *)
Record Db := mkDb {
  masters : gmap Z Master;
  masters_seq : Z;
  jobs : gmap Z Job;
  jobs_seq : Z;
  transactions : list Transaction;
  transactions_seq : Z
}.

Definition empty_db : Db :=
  {| masters := ∅; masters_seq := 0; jobs := ∅; jobs_seq := 0;
     transactions := []; transactions_seq := 0 |}.

Definition with_masters (db : Db) (ms : gmap Z Master) : Db :=
  mkDb ms (masters_seq db) (jobs db) (jobs_seq db)
       (transactions db) (transactions_seq db).

Definition with_jobs (db : Db) (js : gmap Z Job) : Db :=
  mkDb (masters db) (masters_seq db) js (jobs_seq db)
       (transactions db) (transactions_seq db).

(** *** Results *)

Inductive result (A : Type) :=
| Ok (a : A)
| HTTPException (status_code : Z) (detail : string).
Arguments Ok {A} a.
Arguments HTTPException {A} status_code detail.

Definition succeeded {A} (r : result A) : bool :=
  match r with Ok _ => true | HTTPException _ _ => false end.

(** *** Request models *)

Record MasterRegister := {
  mr_full_name : string;
  mr_phone : string;
  mr_specializations : list string;
  mr_city : string;
  mr_preferred_channel : string
}.

Record ClientRequest := {
  cr_name : string;
  cr_phone : string;
  cr_category : string;
  cr_problem_description : string;
  cr_address : string;
  cr_photos : option (list string)
}.

Record PaymentProcess := {
  pp_job_id : Z;
  pp_payment_method : string;
  pp_amount : float
}.

Definition chars (s : string) : Z := Text.len (Text.of_string s).

Definition is_digit (b : N) : bool := ((48 <=? b) && (b <=? 57))%N.

(** [pattern=r'^\+\d{10,15}$'], with [\d] read as an ASCII digit. *)
Definition phone_ok (s : string) : bool :=
  match Text.bytes_of_string s with
  | 43%N :: ds =>
    forallb is_digit ds
    && (10 <=? Z.of_nat (length ds)) && (Z.of_nat (length ds) <=? 15)
  | _ => false
  end.

Definition in_list (s : string) (l : list string) : bool :=
  existsb (String.eqb s) l.

Definition valid_MasterRegister (m : MasterRegister) : bool :=
  (2 <=? chars (mr_full_name m)) && (chars (mr_full_name m) <=? 100)
  && phone_ok (mr_phone m)
  && (1 <=? Z.of_nat (length (mr_specializations m)))
  && (2 <=? chars (mr_city m)) && (chars (mr_city m) <=? 50).

Definition valid_ClientRequest (r : ClientRequest) : bool :=
  (2 <=? chars (cr_name r)) && (chars (cr_name r) <=? 100)
  && phone_ok (cr_phone r)
  && (10 <=? chars (cr_problem_description r))
  && (5 <=? chars (cr_address r)).

(** [JobStatusUpdate.status] *)
Definition valid_JobStatusUpdate (s : string) : bool :=
  in_list s ["pending"; "accepted"; "in_progress"; "completed"; "cancelled"]%string.

(** [amount: float = Field(..., gt=0)] *)
Definition valid_PaymentProcess (p : PaymentProcess) : bool :=
  in_list (pp_payment_method p) ["cash"; "card"; "sbp"]%string
  && Float.ltb (of_Z 0) (pp_amount p).

Definition unprocessable {A} : result A :=
  HTTPException 422 "validation error".

(** *** Helpers *)

(** A Python float bound to a REAL column: SQLite stores a NaN as NULL. *)
Definition sql_real (x : float) : option float :=
  if is_nan x then None else Some x.

(** A Python number bound to a REAL column: an int is stored as the double
    of the same value (the ints bound by the source are below 2^53). *)
Definition sql_real_num (a : num) : option float :=
  match a with
  | Int n => Some (of_Z n)
  | Flt x => sql_real x
  end.

(** [calculate_pricing]: the advanced calculator is importable, so the
    estimate is its total; the basic computation runs only if it raised. *)
Definition calculate_pricing (category description : string) : res num :=
  match Pricing.estimate_from_description
          (Text.of_string description) (Text.of_string category) with
  | inr r => mret (Pricing.total_price r)
  | inl _ =>
    let base_prices : gmap string Z :=
      list_to_map [("electrical", 1500); ("plumbing", 1800);
                   ("appliance", 2000); ("general", 1200)]%string in
    let base_price := Int (default 1500 (base_prices !! category)) in
    let d := Text.lower (Text.of_string description) in
    base_price ←
      (if Text.contains (Text.of_string "срочно") d
          || Text.contains (Text.of_string "urgent") d
       then Py.mul base_price (Flt (dec 13 1)) else mret base_price);
    base_price ←
      (if Text.len (Text.of_string description) >? 200
       then Py.mul base_price (Flt (dec 12 1)) else mret base_price);
    mret (Py.round base_price 2)
  end.

Record Fees := {
  total : float;
  payment_gateway_fee : float;
  platform_commission : float;
  fee_master_earnings : float
}.

Definition calculate_platform_fee (amount : float) : Fees :=
  let payment_gateway_fee := Float.fmul amount (dec 2 2) in
  let remaining := Float.fsub amount payment_gateway_fee in
  let platform_commission := Float.fmul remaining (dec 25 2) in
  let master_earnings := Float.fsub remaining platform_commission in
  {| total := amount;
     payment_gateway_fee := Float.fround payment_gateway_fee 2;
     platform_commission := Float.fround platform_commission 2;
     fee_master_earnings := Float.fround master_earnings 2 |}.

(** *** Row updates *)

Definition set_status (s : string) (j : Job) : Job :=
  let '(mkJob cn cp c pd a ep _ m ca da aa rv la lo ru ge gt) := j in
  mkJob cn cp c pd a ep s m ca da aa rv la lo ru ge gt.

Definition set_master_id (m : option Z) (j : Job) : Job :=
  let '(mkJob cn cp c pd a ep s _ ca da aa rv la lo ru ge gt) := j in
  mkJob cn cp c pd a ep s m ca da aa rv la lo ru ge gt.

Definition set_departure (now : Z) (lat lon : option float)
    (route_url : option string) (j : Job) : Job :=
  let '(mkJob cn cp c pd a ep s m ca _ aa rv _ _ _ ge gt) := j in
  mkJob cn cp c pd a ep s m ca (Some now) aa rv
        (lat ≫= sql_real) (lon ≫= sql_real) route_url ge gt.

Definition set_arrival (now : Z) (j : Job) : Job :=
  let '(mkJob cn cp c pd a ep s m ca da _ _ la lo ru ge gt) := j in
  mkJob cn cp c pd a ep s m ca da (Some now) true la lo ru ge gt.

(** [UPDATE jobs SET ... WHERE id = ? AND cond]: the table after the
    statement and [cursor.rowcount]. *)
Definition update_job (id : Z) (cond : Job -> bool) (set : Job -> Job)
    (js : gmap Z Job) : gmap Z Job * Z :=
  match js !! id with
  | Some j => if cond j then (<[id := set j]> js, 1) else (js, 0)
  | None => (js, 0)
  end.

Definition set_terminal_active (b : bool) (m : Master) : Master :=
  {| full_name := full_name m; phone := phone m;
     specializations := specializations m; city := city m;
     preferred_channel := preferred_channel m; rating := rating m;
     is_active := is_active m; terminal_active := b;
     master_created_at := master_created_at m |}.

(** [UPDATE masters SET terminal_active = ? WHERE id = ?] *)
Definition update_master (id : Z) (set : Master -> Master)
    (ms : gmap Z Master) : gmap Z Master * Z :=
  match ms !! id with
  | Some m => (<[id := set m]> ms, 1)
  | None => (ms, 0)
  end.

(** *** Handlers

    Each handler takes its request, the clock reading [now] where it stores
    CURRENT_TIMESTAMP, and the database; it returns the response and the
    database it leaves behind (what was committed). *)

Section Handlers.

(** [find_available_master(category, city)] runs one SELECT with a LIKE
    filter over the JSON text of the specializations and an ORDER BY
    rating that leaves ties to SQLite; it is read-only, and the handlers
    below only use the identifier it returns. *)
Variable find_available_master : Db -> string -> string -> option Z.

Definition register_master (now : Z) (master : MasterRegister) (db : Db)
  : result Z * Db :=
  if negb (valid_MasterRegister master) then (unprocessable, db)
  else if bool_decide
            (map_Exists (fun _ m => phone m = mr_phone master) (masters db))
  then (HTTPException 400 "Телефон уже зарегистрирован", db)
  else
    let master_id := masters_seq db + 1 in
    let row :=
      {| full_name := mr_full_name master; phone := mr_phone master;
         specializations := mr_specializations master;
         city := mr_city master;
         preferred_channel := mr_preferred_channel master;
         rating := dec 50 1; is_active := true; terminal_active := false;
         master_created_at := now |} in
    (Ok master_id,
     mkDb (<[master_id := row]> (masters db)) master_id
          (jobs db) (jobs_seq db) (transactions db) (transactions_seq db)).

Definition activate_terminal (master_id : Z) (db : Db)
  : result string * Db :=
  let '(ms, rowcount) :=
    update_master master_id (set_terminal_active true) (masters db) in
  if rowcount =? 0
  then (HTTPException 404 "Мастер не найден", db)
  else (Ok "Терминал активирован"%string, with_masters db ms).

Definition update_terminal_status (master_id : Z) (terminal_active : bool)
    (db : Db) : result bool * Db :=
  let '(ms, _) :=
    update_master master_id (set_terminal_active terminal_active)
                  (masters db) in
  (Ok terminal_active, with_masters db ms).

(** POST /api/v1/jobs/{job_id}/assign; [master_id] is
    [data.get('master_id')]. *)
Definition assign_job_to_master (job_id : Z) (master_id : option Z)
    (db : Db) : result string * Db :=
  let '(js, rowcount) :=
    update_job job_id
      (fun j => String.eqb (status j) "pending")
      (fun j => set_status "accepted" (set_master_id master_id j))
      (jobs db) in
  if rowcount =? 0
  then (HTTPException 400 "Заказ уже назначен или не найден", db)
  else (Ok "Заказ принят"%string, with_jobs db js).

(** PATCH /api/v1/jobs/{job_id}/status; [new_status] is
    [data.get('status')]. *)
Definition update_job_status (job_id : Z) (new_status : option string)
    (db : Db) : result string * Db :=
  match new_status with
  | Some new_status =>
    if negb (in_list new_status
               ["pending"; "accepted"; "in_progress"; "completed";
                "cancelled"]%string)
    then (HTTPException 400 "Неверный статус", db)
    else
      let '(js, _) :=
        update_job job_id (fun _ => true) (set_status new_status)
                   (jobs db) in
      (Ok new_status, with_jobs db js)
  | None => (HTTPException 400 "Неверный статус", db)
  end.

(** POST /api/v1/ai/web-form.  The calendar synchronisation is switched
    off in the source ([GOOGLE_SYNC_AVAILABLE = False]).  An exception that
    leaves the handler is answered with the error 500, before anything is
    written. *)
Definition process_client_request (now : Z) (request : ClientRequest)
    (db : Db) : result (Z * num * option Z) * Db :=
  if negb (valid_ClientRequest request) then (unprocessable, db)
  else
  match calculate_pricing (cr_category request)
                          (cr_problem_description request) with
  | inl _ => (HTTPException 500 "Internal Server Error", db)
  | inr estimated_price =>
    let master_id :=
      find_available_master db (cr_category request) "Москва" in
    let truthy :=
      match master_id with Some m => negb (m =? 0) | None => false end in
    let job_id := jobs_seq db + 1 in
    let row :=
      {| client_name := cr_name request;
         client_phone := cr_phone request;
         category := cr_category request;
         problem_description := cr_problem_description request;
         address := cr_address request;
         estimated_price := sql_real_num estimated_price;
         status := if truthy then "accepted" else "pending";
         master_id := master_id;
         created_at := now;
         master_departed_at := None;
         master_arrived_at := None;
         client_phone_revealed := false;
         master_location_lat := None;
         master_location_lon := None;
         route_screenshot_url := None;
         google_calendar_event_id := None;
         google_task_id := None |} in
    (Ok (job_id, estimated_price, master_id),
     mkDb (masters db) (masters_seq db)
          (<[job_id := row]> (jobs db)) job_id
          (transactions db) (transactions_seq db))
  end.

(** PATCH /api/v1/terminal/jobs/{master_id}/status/{job_id}: the second
    function of the source named [update_job_status]. *)
Definition terminal_update_job_status (master : Z) (job_id : Z)
    (update_status : string) (db : Db) : result string * Db :=
  if negb (valid_JobStatusUpdate update_status) then (unprocessable, db)
  else
    let '(js, rowcount) :=
      update_job job_id
        (fun j => bool_decide (master_id j = Some master))
        (set_status update_status) (jobs db) in
    if rowcount =? 0
    then (HTTPException 404 "Заказ не найден", db)
    else (Ok update_status, with_jobs db js).

(** POST /api/v1/terminal/payment/process *)
Definition process_payment (now : Z) (payment : PaymentProcess) (db : Db)
  : result (Z * Fees) * Db :=
  if negb (valid_PaymentProcess payment) then (unprocessable, db)
  else
    let fees := calculate_platform_fee (pp_amount payment) in
    let transaction_id := transactions_seq db + 1 in
    let row :=
      {| transaction_id := transaction_id;
         job_id := pp_job_id payment;
         amount := pp_amount payment;
         payment_method := pp_payment_method payment;
         platform_fee := sql_real (platform_commission fees);
         master_earnings := sql_real (fee_master_earnings fees);
         transaction_status := "completed";
         transaction_created_at := now |} in
    let '(js, _) :=
      update_job (pp_job_id payment) (fun _ => true)
                 (set_status "completed") (jobs db) in
    (Ok (transaction_id, fees),
     mkDb (masters db) (masters_seq db) js (jobs_seq db)
          (transactions db ++ [row]) transaction_id).

(** POST /api/v1/master/depart/{job_id}; [lat], [lon] are
    [location.get('lat')], [location.get('lon')] and [route_url] is
    [data.get('route_screenshot_url', '')]. *)
Definition master_depart (now : Z) (job_id : Z) (lat lon : option float)
    (route_url : string) (db : Db) : result string * Db :=
  let '(js, _) :=
    update_job job_id (fun _ => true)
      (fun j => set_status "on-the-way"
                  (set_departure now lat lon (Some route_url) j))
      (jobs db) in
  (Ok route_url, with_jobs db js).

(** POST /api/v1/master/arrive/{job_id}: the answer carries the client's
    phone and name. *)
Definition master_arrive (now : Z) (job_id : Z) (db : Db)
  : result (string * string) * Db :=
  match jobs db !! job_id with
  | None => (HTTPException 404 "Заказ не найден", db)
  | Some job =>
    let '(js, _) :=
      update_job job_id (fun _ => true)
        (fun j => set_status "arrived" (set_arrival now j)) (jobs db) in
    (Ok (client_phone job, client_name job), with_jobs db js)
  end.

(** *** The write interface as one transition function *)

Inductive request :=
| RegisterMaster (master : MasterRegister)
| ActivateTerminal (master_id : Z)
| UpdateTerminalStatus (master_id : Z) (terminal_active : bool)
| AssignJob (job_id : Z) (master_id : option Z)
| UpdateJobStatus (job_id : Z) (new_status : option string)
| ProcessClientRequest (r : ClientRequest)
| TerminalUpdateJobStatus (master_id job_id : Z) (update_status : string)
| ProcessPayment (payment : PaymentProcess)
| MasterDepart (job_id : Z) (lat lon : option float) (route_url : string)
| MasterArrive (job_id : Z).

(** [handle now req db]: whether the request was answered without an
    exception, and the database afterwards. *)
Definition handle (now : Z) (req : request) (db : Db) : bool * Db :=
  match req with
  | RegisterMaster m =>
    let '(r, db') := register_master now m db in (succeeded r, db')
  | ActivateTerminal m =>
    let '(r, db') := activate_terminal m db in (succeeded r, db')
  | UpdateTerminalStatus m b =>
    let '(r, db') := update_terminal_status m b db in (succeeded r, db')
  | AssignJob j m =>
    let '(r, db') := assign_job_to_master j m db in (succeeded r, db')
  | UpdateJobStatus j s =>
    let '(r, db') := update_job_status j s db in (succeeded r, db')
  | ProcessClientRequest c =>
    let '(r, db') := process_client_request now c db in (succeeded r, db')
  | TerminalUpdateJobStatus m j s =>
    let '(r, db') := terminal_update_job_status m j s db in
    (succeeded r, db')
  | ProcessPayment p =>
    let '(r, db') := process_payment now p db in (succeeded r, db')
  | MasterDepart j lat lon url =>
    let '(r, db') := master_depart now j lat lon url db in
    (succeeded r, db')
  | MasterArrive j =>
    let '(r, db') := master_arrive now j db in (succeeded r, db')
  end.

(** A run: requests handled one after the other, each stamped with its
    clock reading. *)
Fixpoint run (reqs : list (Z * request)) (db : Db) : Db :=
  match reqs with
  | [] => db
  | (now, req) :: rest => run rest (snd (handle now req db))
  end.

End Handlers.

End Platform.

(** ** The specification's own formulas

    Formulas written from the words of the design specification, to be
    compared with the functions embedded from the source above.  The
    specification speaks of amounts, not of doubles: its arithmetic is
    exact. *)

Module Spec.
Import Num.
Local Open Scope Qc_scope.

(** Rounding to the nearest ten currency units. *)
Definition round_to_ten (x : Qc) : Qc :=
  qz (10 * round_half_even (x / qz 10)).

(** Rounding to two decimal places. *)
Definition round_to_cents (x : Qc) : Qc :=
  qz (round_half_even (x * qz 100)) / qz 100.

Definition product (ms : list Qc) : Qc := fold_right Qcmult 1 ms.

(** Section 3, the invariant of a quote:
    [total = round_to_ten((base + points) * product(multipliers)
                          * (1 - discount_percent))]. *)
Definition total (base points : Qc) (ms : list Qc) (discount : Qc) : Qc :=
  round_to_ten ((base + points) * product ms * (1 - discount)).


(** Section 4.1, step 2: the installation-point price as a sum over the
    units, at the unit prices of the electrical table of the source. *)
Definition installation_points_price (f : Pricing.PriceFactors) : Z :=
  match Pricing.category f with
  | Pricing.ELECTRICAL =>
    let wiring (w : Z) := if Pricing.materials_needed f then w else 0%Z in
    ((if (0 <? Pricing.outlets f)%Z
      then (350 + wiring 850) * Pricing.outlets f else 0)
     + (if (0 <? Pricing.switches f)%Z
        then (300 + wiring 1500) * Pricing.switches f else 0)
     + (if (0 <? Pricing.chandeliers f)%Z
        then 1000 * Pricing.chandeliers f else 0))%Z
  | _ => 0%Z
  end.

(** Section 4.1, step 5: the volume discount by tiers of the item count,
    each percentage as the double of its decimal. *)
Definition volume_discount (n : Z) : Float.float :=
  if (n <=? 2)%Z then Float.dec 0 2
  else if (n <=? 5)%Z then Float.dec 5 2
  else if (n <=? 10)%Z then Float.dec 10 2
  else if (n <=? 20)%Z then Float.dec 15 2
  else Float.dec 20 2.

(** Section 4.3: the transitions of the job life cycle, the travel
    sub-sequence included. *)
Definition legal_transition (current new : string) : bool :=
  existsb
    (fun t => String.eqb current (fst t) && String.eqb new (snd t))
    [("pending", "accepted"); ("accepted", "in_progress");
     ("in_progress", "completed"); ("pending", "cancelled");
     ("accepted", "cancelled"); ("accepted", "on-the-way");
     ("in_progress", "on-the-way"); ("on-the-way", "arrived");
     ("arrived", "in_progress")]%string.

(** Section 4.4: the fee cascade on exact amounts. *)
Definition gateway_fee (amount : Qc) : Qc := amount * ratio 2 100.
Definition remaining (amount : Qc) : Qc := amount - gateway_fee amount.
Definition commission (amount : Qc) : Qc := remaining amount * ratio 25 100.
Definition earnings (amount : Qc) : Qc :=
  remaining amount - commission amount.

End Spec.

(** ** Sample data *)

Module Examples.
Import Float Py Pricing.

(** The description of the specification's estimator example. *)
Definition sockets_job : Text.str :=
  Text.of_string "Срочно нужно установить 3 розетки и 2 выключателя".

(** The same factors, the urgency reset to normal. *)
Definition at_normal_urgency (f : PriceFactors) : PriceFactors :=
  setattr f (kw_urgency NORMAL).

(** The total of an outcome of [get_quick_price], if it has one. *)
Definition quoted (r : res PriceResult) : option num :=
  match r with
  | inr q => Some (total_price q)
  | inl _ => None
  end.

End Examples.

(** ** Observations on the database *)

Module Store.
Import Float Py Platform.
Local Open Scope Z_scope.

(** Every key of [jobs] was handed out by the AUTOINCREMENT counter. *)
Definition jobs_issued (db : Db) : Prop :=
  map_Forall (fun k (_ : Job) => k <= jobs_seq db) (jobs db).

Definition status_of (db : Db) (id : Z) : option string :=
  status <$> jobs db !! id.

Definition master_of (db : Db) (id : Z) : option (option Z) :=
  master_id <$> jobs db !! id.

(** The contact-reveal flag of a job; [false] for a job that is not there. *)
Definition flag (js : gmap Z Job) (id : Z) : bool :=
  match js !! id with
  | Some j => client_phone_revealed j
  | None => false
  end.

Definition revealed (db : Db) (id : Z) : bool := flag (jobs db) id.

(** A row update that never clears the reveal flag. *)
Definition keeps_reveal (set : Job -> Job) : Prop :=
  forall j, client_phone_revealed j = true ->
            client_phone_revealed (set j) = true.

(** The transactions recorded for a job. *)
Definition transactions_of (db : Db) (id : Z) : list Transaction :=
  filter (fun t => job_id t = id) (transactions db).

(** The row a settlement request writes into [transactions]. *)
Definition settlement_record (now : Z) (p : PaymentProcess) (db : Db)
  : Transaction :=
  let fees := calculate_platform_fee (pp_amount p) in
  {| transaction_id := transactions_seq db + 1;
     job_id := pp_job_id p;
     amount := pp_amount p;
     payment_method := pp_payment_method p;
     platform_fee := sql_real (platform_commission fees);
     master_earnings := sql_real (fee_master_earnings fees);
     transaction_status := "completed";
     transaction_created_at := now |}.

(** Whether a request is a settlement of job [id] that passes validation. *)
Definition settles (id : Z) (req : request) : bool :=
  match req with
  | ProcessPayment p =>
    valid_PaymentProcess p && bool_decide (pp_job_id p = id)
  | _ => false
  end.

Definition settlements (id : Z) (reqs : list (Z * request)) : nat :=
  length (filter (fun r => settles id (snd r) = true) reqs).

(** A job as the web form creates it, with a given status and master. *)
Definition sample_job (st : string) (m : option Z) : Job :=
  {| client_name := "Anna"; client_phone := "+79001234567";
     category := "electrical";
     problem_description := "Не работает розетка на кухне";
     address := "Калининград, Ленинский проспект, 1";
     estimated_price := Some (of_Z 1850); status := st; master_id := m;
     created_at := 0; master_departed_at := None;
     master_arrived_at := None; client_phone_revealed := false;
     master_location_lat := None; master_location_lon := None;
     route_screenshot_url := None; google_calendar_event_id := None;
     google_task_id := None |}.

(** A database holding job 1 only. *)
Definition one_job (st : string) (m : option Z) : Db :=
  {| masters := ∅; masters_seq := 0;
     jobs := {[ 1 := sample_job st m ]}; jobs_seq := 1;
     transactions := []; transactions_seq := 0 |}.

Definition no_master : Db -> string -> string -> option Z :=
  fun _ _ _ => None.

Definition cash_1000 : PaymentProcess :=
  {| pp_job_id := 1; pp_payment_method := "cash";
     pp_amount := of_Z 1000 |}.

End Store.

(** ** Invariants of the database *)

Module Invariants.
Import Float Py Platform.
Local Open Scope Z_scope.

(** The columns of a job that come from the client's submission. *)
Definition client_record (j : Job)
  : string * string * string * string * string * option float * Z :=
  (client_name j, client_phone j, category j, problem_description j,
   address j, estimated_price j, created_at j).

(** The statuses the handlers write: the five of the set-status operation
    and the two of the travel handlers. *)
Definition known_status (s : string) : bool :=
  in_list s
    ["pending"; "accepted"; "in_progress"; "completed"; "cancelled";
     "on-the-way"; "arrived"]%string.

Definition statuses_known (db : Db) : Prop :=
  map_Forall (fun _ j => known_status (status j) = true) (jobs db).

(** No two masters share a phone (the UNIQUE constraint of the schema). *)
Definition phones_unique (db : Db) : Prop :=
  forall i j mi mj,
    masters db !! i = Some mi -> masters db !! j = Some mj ->
    phone mi = phone mj -> i = j.

(** A run that takes job 1 through assignment, travel and payment. *)
Definition sample_run : list (Z * request) :=
  [(10, AssignJob 1 (Some 7));
   (20, MasterDepart 1 None None "");
   (30, MasterArrive 1);
   (40, UpdateJobStatus 1 (Some "in_progress"%string));
   (50, ProcessPayment Store.cash_1000)].

(** A registration that passes validation. *)
Definition sample_master : MasterRegister :=
  {| mr_full_name := "Ivan Petrov"; mr_phone := "+79001234567";
     mr_specializations := ["electrical"%string]; mr_city := "Kaliningrad";
     mr_preferred_channel := "telegram" |}.

(** A submission that passes validation. *)
Definition sample_request : ClientRequest :=
  {| cr_name := "Anna"; cr_phone := "+79001234567";
     cr_category := "electrical";
     cr_problem_description := "Не работает розетка на кухне";
     cr_address := "Калининград, Ленинский проспект, 1";
     cr_photos := None |}.

End Invariants.

(** ** Read-only endpoints of [main.py] *)

Module Queries.
Import Float Py Platform.
Local Open Scope Z_scope.

(** The answer of GET /api/v1/client/track/{job_id}. *)
Record Tracking := {
  tr_status : string;
  tr_departed : bool;
  tr_arrived : bool;
  tr_location : option (float * option float);
  tr_route_url : option string;
  tr_estimated_price : option float
}.

(** [track_master].  A stored timestamp is a non-empty text, so [bool(...)]
    of the column is true exactly when the column is not NULL; the location
    is given only if the latitude is truthy, that is neither NULL nor a
    zero. *)
Definition track_master (job_id : Z) (db : Db) : result Tracking :=
  match jobs db !! job_id with
  | None => HTTPException 404 "Заказ не найден"
  | Some job =>
    Ok {| tr_status := status job;
          tr_departed :=
            match master_departed_at job with Some _ => true | None => false end;
          tr_arrived :=
            match master_arrived_at job with Some _ => true | None => false end;
          tr_location :=
            match master_location_lat job with
            | Some lat =>
              if is_zero lat then None
              else Some (lat, master_location_lon job)
            | None => None
            end;
          tr_route_url := route_screenshot_url job;
          tr_estimated_price := estimated_price job |}
  end.

(** The completed jobs of a master: the rows of [jobs] that the WHERE clause
    of the earnings query keeps. *)
Definition completed_by (master : Z) (db : Db) : list (Z * Job) :=
  filter
    (fun kj => master_id (snd kj) = Some master
               /\ status (snd kj) = "completed"%string)
    (map_to_list (jobs db)).

(** [jobs j LEFT JOIN transactions t ON j.id = t.job_id], for one job: a row
    per transaction of the job, or one row without a transaction. *)
Definition joined (db : Db) (kj : Z * Job) : list (option Transaction) :=
  match filter (fun t => job_id t = fst kj) (transactions db) with
  | [] => [None]
  | ts => map Some ts
  end.

Record Earnings := {
  total_jobs : Z;
  total_earnings : num;
  total_revenue : num
}.

Section Aggregates.

(** SQLite's [SUM] over the REAL values of a column that are not NULL, in
    row order.  How SQLite adds them up is not the source's business. *)
Variable sum_real : list float -> float.

(** [round(COALESCE(SUM(t.column), 0), 2)] over the joined rows: without a
    value to add the sum is NULL and the integer 0 stands in. *)
Definition sum_column (column : Transaction -> option float)
    (rows : list (option Transaction)) : num :=
  match omap (fun row => row ≫= column) rows with
  | [] => Py.round (Int 0) 2
  | values => Py.round (Flt (sum_real values)) 2
  end.

(** GET /api/v1/terminal/earnings/{master_id} *)
Definition get_master_earnings (master : Z) (db : Db) : Earnings :=
  let rows := flat_map (joined db) (completed_by master db) in
  {| total_jobs := Z.of_nat (length rows);
     total_earnings := sum_column master_earnings rows;
     total_revenue := sum_column (fun t => Some (amount t)) rows |}.

End Aggregates.

End Queries.

(** ** The Telegram bots *)

Module Bots.
Import Platform.
Local Open Scope Z_scope.

(** *** The job card of the master bot ([telegram_master_bot.py])

    A callback sends one request to the API and shows the edited card when
    the answer is 200, a failure notice otherwise.  Network failures are not
    modelled. *)

Inductive shown := Edited | Notice.

Definition shown_for {A} (r : result A) : shown :=
  if succeeded r then Edited else Notice.

Definition accept_job (job_id master : Z) (db : Db) : shown * Db :=
  let '(r, db') := assign_job_to_master job_id (Some master) db in
  (shown_for r, db').

Definition start_job (job_id : Z) (db : Db) : shown * Db :=
  let '(r, db') := update_job_status job_id (Some "in_progress"%string) db in
  (shown_for r, db').

Definition complete_job (job_id : Z) (db : Db) : shown * Db :=
  let '(r, db') := update_job_status job_id (Some "completed"%string) db in
  (shown_for r, db').

Definition cancel_job (job_id : Z) (db : Db) : shown * Db :=
  let '(r, db') := update_job_status job_id (Some "cancelled"%string) db in
  (shown_for r, db').

(** *** The conversation of the client bot ([telegram_client_bot.py]) *)

Inductive state := NAME | PHONE | CATEGORY | PROBLEM | ADDRESS | CONFIRM | END.

(** [context.user_data]: the keys the conversation writes. *)
Record user_data := mkData {
  ud_name : option string;
  ud_phone : option string;
  ud_category : option string;
  ud_category_name : option string;
  ud_problem : option string;
  ud_address : option string
}.

Definition CATEGORIES : gmap string string :=
  list_to_map
    [("⚡ Электрика", "electrical"); ("🚰 Сантехника", "plumbing");
     ("🔌 Бытовая техника", "appliance"); ("🔨 Общие работы", "general")]%string.

(** [phone.startswith('+7') and len(phone) == 12] *)
Definition bot_phone_ok (phone : string) : bool :=
  Text.starts_with (Text.of_string "+7") (Text.of_string phone)
  && (chars phone =? 12).

Definition get_name (text : string) (d : user_data) : state * user_data :=
  let '(mkData _ p c cn pr a) := d in (PHONE, mkData (Some text) p c cn pr a).

Definition get_phone (text : string) (d : user_data) : state * user_data :=
  if negb (bot_phone_ok text) then (PHONE, d)
  else let '(mkData n _ c cn pr a) := d in
       (CATEGORY, mkData n (Some text) c cn pr a).

Definition get_category (text : string) (d : user_data)
  : state * user_data :=
  match CATEGORIES !! text with
  | None => (CATEGORY, d)
  | Some category =>
    let '(mkData n p _ _ pr a) := d in
    (PROBLEM, mkData n p (Some category) (Some text) pr a)
  end.

Definition get_problem (text : string) (d : user_data) : state * user_data :=
  if chars text <? 10 then (PROBLEM, d)
  else let '(mkData n p c cn _ a) := d in
       (ADDRESS, mkData n p c cn (Some text) a).

Definition get_address (text : string) (d : user_data) : state * user_data :=
  if chars text <? 5 then (ADDRESS, d)
  else let '(mkData n p c cn pr _) := d in
       (CONFIRM, mkData n p c cn pr (Some text)).

(** [confirm]: the request posted to the web form, if the answer is a yes.
    A key missing from [user_data] is a [KeyError], caught by the handler:
    nothing is posted. *)
Definition confirm (text : string) (d : user_data) : option ClientRequest :=
  let answer := Text.lower (Text.of_string text) in
  if negb (existsb (fun w => bool_decide (answer = Text.of_string w))
             ["да"; "yes"; "lf"]%string)
  then None
  else
    name ← ud_name d;
    phone ← ud_phone d;
    category ← ud_category d;
    problem ← ud_problem d;
    address ← ud_address d;
    Some {| cr_name := name; cr_phone := phone; cr_category := category;
            cr_problem_description := problem; cr_address := address;
            cr_photos := None |}.

(** One text message, dispatched by the state of the conversation as the
    [ConversationHandler] of [main] does: the next state, the data, and the
    request posted, if any.  The handlers see the text messages that are not
    commands; the replies to the user, which the [ai] helper words, are not
    modelled. *)
Definition dispatch (st : state) (text : string) (d : user_data)
  : state * user_data * option ClientRequest :=
  match st with
  | NAME => (get_name text d, None)
  | PHONE => (get_phone text d, None)
  | CATEGORY => (get_category text d, None)
  | PROBLEM => (get_problem text d, None)
  | ADDRESS => (get_address text d, None)
  | CONFIRM => ((END, d), confirm text d)
  | END => ((END, d), None)
  end.

(** A conversation: the messages in order, and the requests posted. *)
Fixpoint converse (st : state) (d : user_data) (texts : list string)
  : list ClientRequest :=
  match texts with
  | [] => []
  | text :: rest =>
    let '(st', d', posted) := dispatch st text d in
    match posted with
    | Some r => r :: converse st' d' rest
    | None => converse st' d' rest
    end
  end.

(** The categories [calculate_pricing] of [main.py] has a base price for. *)
Definition api_categories : list string :=
  ["electrical"; "plumbing"; "appliance"; "general"]%string.

(** What the conversation has checked by the time it is in a state. *)
Definition checked (st : state) (d : user_data) : Prop :=
  match st with
  | NAME | PHONE | END => True
  | CATEGORY =>
    forall p, ud_phone d = Some p -> bot_phone_ok p = true
  | PROBLEM =>
    (forall p, ud_phone d = Some p -> bot_phone_ok p = true)
    /\ (forall c, ud_category d = Some c -> In c api_categories)
  | ADDRESS =>
    (forall p, ud_phone d = Some p -> bot_phone_ok p = true)
    /\ (forall c, ud_category d = Some c -> In c api_categories)
    /\ (forall t, ud_problem d = Some t -> 10 <= chars t)
  | CONFIRM =>
    (forall p, ud_phone d = Some p -> bot_phone_ok p = true)
    /\ (forall c, ud_category d = Some c -> In c api_categories)
    /\ (forall t, ud_problem d = Some t -> 10 <= chars t)
    /\ (forall a, ud_address d = Some a -> 5 <= chars a)
  end.

(** What the bot has checked of a request it posts. *)
Definition well_formed (r : ClientRequest) : Prop :=
  bot_phone_ok (cr_phone r) = true
  /\ In (cr_category r) api_categories
  /\ 10 <= chars (cr_problem_description r)
  /\ 5 <= chars (cr_address r).

End Bots.

(** ** Checks by enumeration

    Boolean tests that compare the binary64 fee split with the exact
    cascade of the specification, amount by amount. *)

Module Scan.
Import Float Platform.
Local Open Scope Z_scope.

(** Whether two doubles are the same double. *)
Definition same (x y : float) : bool :=
  match x, y with
  | SpecFloat.S754_zero s, SpecFloat.S754_zero s' => Bool.eqb s s'
  | SpecFloat.S754_infinity s, SpecFloat.S754_infinity s' => Bool.eqb s s'
  | SpecFloat.S754_nan, SpecFloat.S754_nan => true
  | SpecFloat.S754_finite s m e, SpecFloat.S754_finite s' m' e' =>
    Bool.eqb s s' && Pos.eqb m m' && Z.eqb e e'
  | _, _ => false
  end.

(** The whole number of cents [k] whose decimal a double is the double of,
    that is [x = dec k 2], if there is one. *)
Definition cents (x : float) : option Z :=
  match Float.value x with
  | Some v =>
    let k := Num.round_half_even (v * Num.qz 100)%Qc in
    if same (dec k 2) x then Some k else None
  | None => None
  end.

(** A share of the specification's cascade for a whole amount, rounded to
    cents and counted in cents. *)
Definition share_cents (share : Qc -> Qc) (amount : Z) : Z :=
  Num.round_half_even (share (Num.qz amount) * Num.qz 100)%Qc.

(** The fee split of a whole amount against the exact cascade: every figure
    is a whole number of cents within one cent of the exact share, and the
    three add up to the amount within one cent. *)
Definition fee_check (amount : Z) : bool :=
  let fees := calculate_platform_fee (of_Z amount) in
  match cents (payment_gateway_fee fees), cents (platform_commission fees),
        cents (fee_master_earnings fees) with
  | Some g, Some c, Some e =>
    let g' := share_cents Spec.gateway_fee amount in
    let c' := share_cents Spec.commission amount in
    let e' := share_cents Spec.earnings amount in
    (Z.abs (g - g') <=? 1) && (Z.abs (c - c') <=? 1)
    && (Z.abs (e - e') <=? 1) && (Z.abs (g + c + e - 100 * amount) <=? 1)
  | _, _, _ => false
  end.

(** The fee split of the even amount [2 * k]: the figures are the doubles
    of [0.04 * k], [0.49 * k] and [1.47 * k]. *)
Definition even_check (k : Z) : bool :=
  let fees := calculate_platform_fee (of_Z (2 * k)) in
  same (payment_gateway_fee fees) (dec (4 * k) 2)
  && same (platform_commission fees) (dec (49 * k) 2)
  && same (fee_master_earnings fees) (dec (147 * k) 2).

End Scan.
(** * Properties *)

(** ** Numbers *)

Module PyFacts.
Import Float Py.
Local Open Scope Z_scope.

(** The threshold of [float_of_int]: the integer just below it is still
    rounded to the largest double, the threshold itself is not. *)
Example float_of_int_threshold :
  of_Z (2 ^ 1024 - 2 ^ 970 - 1) = SpecFloat.SFmax_float prec emax
  /\ of_Z (2 ^ 1024 - 2 ^ 970) = SpecFloat.S754_infinity false.
Proof. split; vm_compute; reflexivity. Qed.

(** The constants [1.0], [2.0], [3.0] and [0.0] are the doubles of the
    integers. *)
Example whole_constants :
  dec 10 1 = of_Z 1 /\ dec 20 1 = of_Z 2 /\ dec 30 1 = of_Z 3
  /\ dec 0 1 = of_Z 0.
Proof. repeat split; vm_compute; reflexivity. Qed.

Lemma bind_inr {A B} (m : res A) (f : A -> res B) (b : B) :
  m ≫= f = inr b -> exists a, m = inr a /\ f a = inr b.
Proof. destruct m as [e|a]; [discriminate|]. intros H. eauto. Qed.

(** An integer that is not astronomically large is converted. *)
Lemma float_of_int_small (n : Z) :
  Z.abs n < 10 ^ 305 -> float_of_int n = inr (of_Z n).
Proof.
  intros H. unfold float_of_int.
  assert (Hlt : 10 ^ 305 < 2 ^ 1024 - 2 ^ 970) by (vm_compute; reflexivity).
  destruct (Z.ltb_spec (Z.abs n) (2 ^ 1024 - 2 ^ 970)); [reflexivity|lia].
Qed.

Lemma as_float_small (a : num) : small a -> exists x, as_float a = inr x.
Proof.
  destruct a as [n|x]; cbn [small as_float]; intros H; [|eauto].
  rewrite float_of_int_small by exact H. eauto.
Qed.

(** With a float operand the result is a float. *)
Lemma binop_float_r fz ff (a : num) (y : float) :
  small a -> exists x, binop fz ff a (Flt y) = inr (Flt x).
Proof.
  intros H. destruct (as_float_small a H) as [x Hx].
  destruct a as [n|x']; cbn [binop as_float] in *; rewrite ?Hx; cbn; eauto.
Qed.

Lemma binop_float_l fz ff (x : float) (b : num) :
  small b -> exists z, binop fz ff (Flt x) b = inr (Flt z).
Proof.
  intros H. destruct (as_float_small b H) as [y Hy].
  cbn [binop as_float]. rewrite Hy. cbn. eauto.
Qed.

End PyFacts.

(** ** The pricing engine *)

Module PricingFacts.
Import Float Py Pricing PyFacts.

Lemma electrical_prices :
  getitem (BASE_PRICES ELECTRICAL) "outlet_install" = inr 350%Z
  /\ getitem (BASE_PRICES ELECTRICAL) "outlet_wiring" = inr 850%Z
  /\ getitem (BASE_PRICES ELECTRICAL) "switch_install" = inr 300%Z
  /\ getitem (BASE_PRICES ELECTRICAL) "switch_wiring" = inr 1500%Z
  /\ getitem (BASE_PRICES ELECTRICAL) "chandelier" = inr 1000%Z.
Proof. repeat split; reflexivity. Qed.

(** No lookup of [_calculate_points_price] fails, and the price is the sum
    of the per-unit prices. *)
Lemma points_price_total (f : PriceFactors) :
  _calculate_points_price f = inr (Spec.installation_points_price f).
Proof.
  destruct electrical_prices as (Ho & How & Hs & Hsw & Hc).
  unfold _calculate_points_price, Spec.installation_points_price.
  destruct (category f); try reflexivity.
  rewrite Ho, How, Hs, Hsw, Hc.
  rewrite !Z.gtb_ltb.
  destruct (0 <? outlets f)%Z, (0 <? switches f)%Z,
    (0 <? chandeliers f)%Z, (materials_needed f);
    cbn [mbind res_bind mret res_ret]; f_equal; lia.
Qed.

(** The base rate of a category. *)
Lemma category_base (c : ServiceCategory) :
  default 1500%Z (BASE_PRICES c !! "base")
  = match c with
    | ELECTRICAL => 1500 | PLUMBING => 1800 | APPLIANCE => 2000
    | GENERAL => 1200 | HVAC => 3000 | EMERGENCY => 2500
    end%Z.
Proof. destruct c; reflexivity. Qed.

(** The multipliers the helper lists, one case at a time: the urgency
    unless normal, the time of day for evening and night, the district
    outside the centre, the distance beyond 10 km. *)
Lemma calculate_multipliers_cases (f : PriceFactors) :
  _calculate_multipliers f
  = (match urgency f with
     | NORMAL => []
     | u => [("urgency"%string, URGENCY_MULTIPLIERS u)]
     end)
    ++ (match time_of_day f with
        | MORNING | DAY => []
        | t => [("time_of_day"%string, TIME_MULTIPLIERS t)]
        end)
    ++ (match district f with
        | CENTER => []
        | d => [("district"%string, DISTRICT_MULTIPLIERS d)]
        end)
    ++ (if Py.gt (Flt (distance_km f)) (Int 10)
        then [("distance"%string,
               Float.fadd (dec 10 1)
                 (Float.fmul (Float.fsub (distance_km f) (of_Z 10))
                            (dec 2 2)))]
        else []).
Proof.
  unfold _calculate_multipliers.
  destruct (urgency f), (time_of_day f), (district f),
    (Py.gt (Flt (distance_km f)) (Int 10)); reflexivity.
Qed.

Lemma get_volume_discount_tiers (n : Z) :
  _get_volume_discount n = Spec.volume_discount n.
Proof.
  unfold _get_volume_discount, Spec.volume_discount, VOLUME_DISCOUNTS.
  cbn [volume_discount_in]. rewrite !Z.geb_leb.
  change (dec 0 1) with (dec 0 2).
  repeat match goal with
         | |- context [(?a <=? ?b)%Z] => destruct (Z.leb_spec a b)
         end; try reflexivity; lia.
Qed.

(** The boundaries of the tiers. *)
Example volume_discount_boundaries :
  map _get_volume_discount [2; 3; 5; 6; 10; 11; 20; 21]%Z
  = [dec 0 2; dec 5 2; dec 5 2; dec 10 2; dec 10 2; dec 15 2; dec 15 2;
     dec 20 2].
Proof. cbn [map]. rewrite !get_volume_discount_tiers. reflexivity. Qed.

(** *** What [calculate] computes *)

(** The steps of [calculate], read off a call that returned. *)
Lemma calculate_steps (f : PriceFactors) (r : PriceResult) :
  calculate f = inr r ->
  let points := Int (Spec.installation_points_price f) in
  let d :=
    Flt (_get_volume_discount (outlets f + switches f + chandeliers f)) in
  exists base sub p da fin percent,
    _get_base_price f = inr base
    /\ Py.add base points = inr sub
    /\ apply_multipliers sub (_calculate_multipliers f) = inr p
    /\ Py.mul p d = inr da
    /\ Py.sub p da = inr fin
    /\ Py.mul d (Int 100) = inr percent
    /\ r = {| base_price := Py.round base 2;
              points_price := Py.round points 2;
              subtotal := Py.round sub 2;
              total_price := Py.round (Py.round fin (-1)) 2;
              discount_percent := percent;
              discount_amount := Py.round da 2;
              multipliers :=
                map (fun kv => (fst kv, Float.fround (snd kv) 2))
                    (_calculate_multipliers f);
              breakdown := _get_breakdown f base points |}.
Proof.
  intros H points d. unfold calculate in H.
  apply bind_inr in H as (base & Hbase & H).
  rewrite points_price_total in H. cbn [mbind res_bind] in H.
  apply bind_inr in H as (sub & Hsub & H).
  apply bind_inr in H as (p & Hp & H).
  apply bind_inr in H as (da & Hda & H).
  apply bind_inr in H as (fin & Hfin & H).
  apply bind_inr in H as (percent & Hpercent & H).
  exists base, sub, p, da, fin, percent.
  injection H as <-. repeat split; assumption.
Qed.

Lemma small_int (n : Z) : (Z.abs n <= 10000)%Z -> small (Int n).
Proof.
  intros H. cbn [small].
  assert (H0 : (10000 < 10 ^ 305)%Z) by (vm_compute; reflexivity).
  revert H0. generalize (10 ^ 305)%Z. intros; lia.
Qed.

Ltac float_step :=
  match goal with
  | |- context [binop ?fz ?ff ?a (Flt ?y)] =>
    let x := fresh "x" in
    let Hx := fresh "Hx" in
    destruct (binop_float_r fz ff a y) as [x Hx];
    [ | rewrite Hx; cbn [mbind res_bind mret res_ret] ]
  | |- context [binop ?fz ?ff (Flt ?x) ?b] =>
    let z := fresh "z" in
    let Hz := fresh "Hz" in
    destruct (binop_float_l fz ff x b) as [z Hz];
    [ | rewrite Hz; cbn [mbind res_bind mret res_ret] ]
  end.

(** The base price is computed whenever the complexity is in range; it is
    the integer base rate or a float. *)
Lemma get_base_price_returns (f : PriceFactors) :
  (Z.abs (complexity f) < 10 ^ 300)%Z ->
  exists base,
    _get_base_price f = inr base
    /\ match base with
       | Int n => (0 <= n <= 3000)%Z
       | Flt _ => True
       end.
Proof.
  intros Hc. unfold _get_base_price, scale_if, Py.add, Py.sub, Py.mul.
  rewrite category_base.
  set (b := match category f with
            | ELECTRICAL => 1500 | PLUMBING => 1800 | APPLIANCE => 2000
            | GENERAL => 1200 | HVAC => 3000 | EMERGENCY => 2500
            end%Z).
  assert (Hb : (0 <= b <= 3000)%Z) by (unfold b; destruct (category f); lia).
  clearbody b.
  assert (Hsb : small (Int b)) by (apply small_int; lia).
  assert (Hc1 : small (Int (complexity f - 1))).
  { replace (complexity f - 1)%Z with (1 * complexity f + (-1))%Z by lia.
    cbn [small].
    assert (H : (10 ^ 300 + 1 < 10 ^ 305)%Z) by (vm_compute; reflexivity).
    revert Hc H. generalize (10 ^ 300)%Z (10 ^ 305)%Z. intros; lia. }
  assert (H1 : small (Int 1)) by (apply small_int; lia).
  assert (H800 : small (Int 800)) by (apply small_int; lia).
  destruct (complexity f >? 1)%Z;
    destruct (Py.gt (Flt (estimated_hours f)) (Int 1));
    destruct (materials_needed f), (high_voltage f), (height_work f),
      (outdoors f);
    cbn [mbind res_bind mret res_ret];
    repeat (float_step; [first [assumption | exact I]|]);
    eexists; (split; [reflexivity|]); first [exact I | exact Hb].
Qed.

Lemma apply_multipliers_returns (ms : list (string * float)) (price : num) :
  small price ->
  exists p, apply_multipliers price ms = inr p /\ small p.
Proof.
  revert price. induction ms as [|[name m] ms IH]; intros price Hs;
    cbn [apply_multipliers].
  - exists price. split; [reflexivity|exact Hs].
  - destruct (binop_float_r Z.mul Float.fmul price m Hs) as [x Hx].
    unfold Py.mul. rewrite Hx. cbn [mbind res_bind].
    apply IH. exact I.
Qed.

Lemma points_price_small (f : PriceFactors) (k : Z) :
  in_range f -> (0 <= k <= 3000)%Z ->
  small (Int (k + Spec.installation_points_price f)).
Proof.
  intros Hr Hk. unfold in_range in Hr.
  apply Forall_cons in Hr as [_ Hr]. apply Forall_cons in Hr as [Ho Hr].
  apply Forall_cons in Hr as [Hs Hr]. apply Forall_cons in Hr as [Hc _].
  cbn [small]. unfold Spec.installation_points_price.
  assert (H : (3000 + 6000 * 10 ^ 300 < 10 ^ 305)%Z)
    by (vm_compute; reflexivity).
  revert Ho Hs Hc H. generalize (10 ^ 300)%Z (10 ^ 305)%Z. intros a b **.
  destruct (category f), (materials_needed f), (0 <? outlets f)%Z,
    (0 <? switches f)%Z, (0 <? chandeliers f)%Z; lia.
Qed.

(** [calculate] returns a quote for all factors in range. *)
Lemma calculate_returns (f : PriceFactors) :
  in_range f -> exists r, calculate f = inr r.
Proof.
  intros Hr.
  assert (Hc : (Z.abs (complexity f) < 10 ^ 300)%Z).
  { unfold in_range in Hr. apply Forall_cons in Hr as [Hc _]. exact Hc. }
  destruct (get_base_price_returns f Hc) as (base & Hbase & Hb).
  unfold calculate. rewrite Hbase, points_price_total.
  cbn [mbind res_bind].
  assert (Hsub : exists sub,
             Py.add base (Int (Spec.installation_points_price f)) = inr sub
             /\ small sub).
  { destruct base as [n|x].
    - eexists. split; [reflexivity|]. apply points_price_small; assumption.
    - destruct (binop_float_l Z.add Float.fadd x
                  (Int (Spec.installation_points_price f))) as [z Hz].
      + replace (Spec.installation_points_price f)
          with (0 + Spec.installation_points_price f)%Z by lia.
        apply points_price_small; [exact Hr|lia].
      + exists (Flt z). split; [exact Hz|exact I]. }
  destruct Hsub as (sub & Hsub & Hss). rewrite Hsub. cbn [mbind res_bind].
  destruct (apply_multipliers_returns (_calculate_multipliers f) sub Hss)
    as (p & Hp & Hsp).
  rewrite Hp. cbn [mbind res_bind]. unfold Py.mul, Py.sub.
  float_step; [exact Hsp|].
  float_step; [exact Hsp|].
  float_step; [apply small_int; lia|].
  eexists. reflexivity.
Qed.


(** Binary64 decides the ten: for an electrical job of complexity 3 and
    two hours with materials the base price is the double just below 3335,
    which the quote shows as 3335.0, and the total is 3330. *)
Example total_of_rounded_base :
  let f :=
    fold_left setattr
      [kw_complexity 3; kw_estimated_hours (dec 20 1);
       kw_materials_needed true] (default_factors ELECTRICAL) in
  _get_base_price f
  = inr (Flt (SpecFloat.S754_finite false 7333742557265919 (-41)))
  /\ base_price <$> calculate f = inr (Flt (of_Z 3335))
  /\ total_price <$> calculate f = inr (Flt (of_Z 3330)).
Proof. repeat split; vm_compute; reflexivity. Qed.




(** C7.  The volume discount of [n] items is 0% up to 2 items, 5% for 3 to
    5, 10% for 6 to 10, 15% for 11 to 20 and 20% from 21 on; [calculate]
    takes it at the total of outlets, switches and chandeliers and applies
    it once, to the amount already multiplied by all multipliers. *)
Theorem volume_discount_tiers (n : Z) (f : PriceFactors) :
  _get_volume_discount n = Spec.volume_discount n
  /\ (in_range f ->
      exists r base sub multiplied da fin percent,
        let d :=
          Flt (Spec.volume_discount
                 (outlets f + switches f + chandeliers f)) in
        calculate f = inr r
        /\ _get_base_price f = inr base
        /\ Py.add base (Int (Spec.installation_points_price f)) = inr sub
        /\ apply_multipliers sub (_calculate_multipliers f) = inr multiplied
        /\ Py.mul multiplied d = inr da
        /\ Py.sub multiplied da = inr fin
        /\ Py.mul d (Int 100) = inr percent
        /\ discount_percent r = percent
        /\ discount_amount r = Py.round da 2
        /\ total_price r = Py.round (Py.round fin (-1)) 2).
Proof.
  split; [apply get_volume_discount_tiers|]. intros Hr.
  destruct (calculate_returns f Hr) as [r Hcalc].
  destruct (calculate_steps f r Hcalc)
    as (base & sub & p & da & fin & percent
        & Hb & Hs & Hp & Hda & Hfin & Hpc & ->).
  rewrite get_volume_discount_tiers in Hda, Hpc.
  eexists. exists base, sub, p, da, fin, percent.
  split; [exact Hcalc|].
  repeat (split; [first [assumption | reflexivity]|]). reflexivity.
Qed.

Lemma volume_discount_tiers_witness :
  let f := fold_left setattr [kw_outlets 2; kw_switches 1]
             (default_factors ELECTRICAL) in
  in_range f
  /\ _get_volume_discount 3 = dec 5 2
  /\ exists r,
       calculate f = inr r
       /\ discount_amount r = Flt (of_Z 125)
       /\ total_price r = Flt (of_Z 2380).
Proof.
  intros f.
  assert (Hr : in_range f) by (repeat constructor).
  split; [exact Hr|].
  destruct (volume_discount_tiers 3 f) as [Ht Hf].
  destruct (Hf Hr) as (r & base & sub & p & da & fin & percent & Hc & _).
  split; [rewrite Ht; reflexivity|].
  exists r. split; [exact Hc|].
  assert (H : (fun q => (discount_amount q, total_price q)) <$> calculate f
              = inr (Flt (of_Z 125), Flt (of_Z 2380)))
    by (vm_compute; reflexivity).
  rewrite Hc in H. injection H as H1 H2. split; assumption.
Defined.

End PricingFacts.

(** ** The estimator and the quick templates *)

Module EstimateFacts.
Import Float Py Pricing PyFacts Examples.

(** The factors the estimator derives from the sample description. *)
Lemma sockets_job_factors :
  let f := estimate_factors sockets_job (kw "electrical") in
  category f = ELECTRICAL /\ urgency f = URGENT
  /\ outlets f = 1%Z /\ switches f = 1%Z /\ chandeliers f = 0%Z
  /\ materials_needed f = false /\ complexity f = 1%Z.
Proof. repeat split; vm_compute; reflexivity. Qed.

(** C3 as the specification words it, with three outlets and two switches
    read off the numerals of the text, does not hold: the
    estimator counts the occurrences of the words. *)
Lemma estimate_counts_words_not_numerals :
  ~ (let f := estimate_factors sockets_job (kw "electrical") in
     urgency f = URGENT /\ outlets f = 3%Z /\ switches f = 2%Z
     /\ exists r r0,
          estimate_from_description sockets_job (kw "electrical") = inr r
          /\ calculate (at_normal_urgency f) = inr r0
          /\ Py.lt (total_price r0) (total_price r) = true).
Proof.
  intros (_ & Houtlets & _). vm_compute in Houtlets. discriminate.
Qed.

(** C3, amended.  For the sample description with the hint "electrical"
    the estimator classifies the urgency as urgent, not emergency, derives
    one outlet and one switch (one occurrence of each word), and the total,
    3220, is strictly greater than the total of the same factors at normal
    urgency, 2150. *)
Theorem estimate_sockets_job :
  let f := estimate_factors sockets_job (kw "electrical") in
  urgency f = URGENT /\ urgency f <> URGENCY_EMERGENCY
  /\ outlets f = 1%Z /\ switches f = 1%Z
  /\ exists r r0,
       estimate_from_description sockets_job (kw "electrical") = inr r
       /\ calculate (at_normal_urgency f) = inr r0
       /\ total_price r = Flt (of_Z 3220)
       /\ total_price r0 = Flt (of_Z 2150)
       /\ Py.lt (total_price r0) (total_price r) = true.
Proof.
  intros f.
  split; [vm_compute; reflexivity|].
  split; [vm_compute; discriminate|].
  split; [vm_compute; reflexivity|].
  split; [vm_compute; reflexivity|].
  unfold estimate_from_description. fold f.
  assert (Hf : in_range f) by (repeat constructor).
  assert (Hf0 : in_range (at_normal_urgency f)) by (repeat constructor).
  destruct (PricingFacts.calculate_returns f Hf) as [r Hr].
  destruct (PricingFacts.calculate_returns _ Hf0) as [r0 Hr0].
  exists r, r0.
  assert (H1 : total_price <$> calculate f = inr (Flt (of_Z 3220)))
    by (vm_compute; reflexivity).
  assert (H2 : total_price <$> calculate (at_normal_urgency f)
               = inr (Flt (of_Z 2150)))
    by (vm_compute; reflexivity).
  rewrite Hr in H1. rewrite Hr0 in H2.
  injection H1 as H1. injection H2 as H2.
  repeat split; try assumption.
  rewrite H1, H2. vm_compute. reflexivity.
Qed.

(** The same text without the word for "urgently" is estimated at normal
    urgency, and then materials are included: that estimate, 4720, is above
    the urgent one.  The comparison of C3 is between the same factors at two
    urgencies, not between these two texts. *)
Remark normal_text_includes_materials :
  let f :=
    estimate_factors
      (Text.of_string "нужно установить 3 розетки и 2 выключателя")
      (kw "electrical") in
  urgency f = NORMAL /\ materials_needed f = true
  /\ (total_price <$> calculate f) = inr (Flt (of_Z 4720)).
Proof. repeat split; vm_compute; reflexivity. Qed.

(** C9.  [get_quick_price] is not a function of its arguments alone: the
    overrides are assigned to the template object held by the shared
    dictionary, so the template stays overridden, and a later call with the
    same name and no overrides returns the very result of the overriding
    call.  With the templates of the source, "outlet_single" is quoted 1850;
    after one call overriding [outlets] to 5 the same plain call is quoted
    3090. *)
Theorem get_quick_price_not_pure :
  (forall name kwargs (ts : gmap string PriceFactors),
      match ts !! name with
      | Some t =>
        snd (get_quick_price name kwargs ts) !! name
        = Some (fold_left setattr kwargs t)
        /\ get_quick_price name [] (snd (get_quick_price name kwargs ts))
           = get_quick_price name kwargs ts
      | None => get_quick_price name kwargs ts = (inl ValueError, ts)
      end)
  /\ (let ts1 :=
        snd (get_quick_price "outlet_single" [kw_outlets 5] QUICK_TEMPLATES) in
      quoted (fst (get_quick_price "outlet_single" [] QUICK_TEMPLATES))
      = Some (Flt (of_Z 1850))
      /\ quoted (fst (get_quick_price "outlet_single" [] ts1))
         = Some (Flt (of_Z 3090))
      /\ quoted (fst (get_quick_price "outlet_single" [] QUICK_TEMPLATES))
         <> quoted (fst (get_quick_price "outlet_single" [] ts1))).
Proof.
  split.
  - intros name kwargs ts. unfold get_quick_price.
    destruct (ts !! name) as [t|] eqn:Hlook; [|reflexivity].
    cbn [snd]. rewrite lookup_insert_eq. split; [reflexivity|].
    cbn [fold_left]. rewrite insert_insert_eq. reflexivity.
  - intros ts1.
    assert (H1 : quoted (fst (get_quick_price "outlet_single" []
                                QUICK_TEMPLATES))
                 = Some (Flt (of_Z 1850))) by (vm_compute; reflexivity).
    assert (H2 : quoted (fst (get_quick_price "outlet_single" [] ts1))
                 = Some (Flt (of_Z 3090))) by (vm_compute; reflexivity).
    split; [exact H1|]. split; [exact H2|].
    rewrite H1, H2. vm_compute. intros H. discriminate H.
Qed.

End EstimateFacts.

(** ** The job life cycle *)

Module LifecycleFacts.
Import Float Py Platform Store.
Local Open Scope Z_scope.

Lemma with_jobs_same db : with_jobs db (jobs db) = db.
Proof. destruct db; reflexivity. Qed.

(** *** One UPDATE statement *)

Lemma update_job_lookup id cond set (js : gmap Z Job) k :
  fst (update_job id cond set js) !! k
  = if decide (k = id)
    then (fun j => if cond j then set j else j) <$> js !! id
    else js !! k.
Proof.
  unfold update_job.
  destruct (js !! id) as [j|] eqn:Hid; [destruct (cond j) eqn:Hc|];
    cbn [fst]; destruct (decide (k = id)) as [->|Hne];
    rewrite ?lookup_insert_eq, ?lookup_insert_ne, ?Hid by congruence;
    cbn; rewrite ?Hc; reflexivity.
Qed.

Lemma update_job_missing id cond set (js : gmap Z Job) :
  js !! id = None -> update_job id cond set js = (js, 0).
Proof. intros H. unfold update_job. rewrite H. reflexivity. Qed.

Lemma update_job_hit id cond set (js : gmap Z Job) j :
  js !! id = Some j -> cond j = true ->
  update_job id cond set js = (<[id := set j]> js, 1).
Proof. intros H Hc. unfold update_job. rewrite H, Hc. reflexivity. Qed.

Lemma update_job_miss id cond set (js : gmap Z Job) j :
  js !! id = Some j -> cond j = false ->
  update_job id cond set js = (js, 0).
Proof. intros H Hc. unfold update_job. rewrite H, Hc. reflexivity. Qed.

(** An UPDATE neither adds nor removes a key. *)
Lemma update_job_keys id cond set (js : gmap Z Job) (P : Z -> Prop) :
  map_Forall (fun k _ => P k) js ->
  map_Forall (fun k _ => P k) (fst (update_job id cond set js)).
Proof.
  intros H k j'. rewrite update_job_lookup.
  destruct (decide (k = id)) as [->|Hne].
  - destruct (js !! id) as [j|] eqn:Hid; [|discriminate].
    intros _. exact (H id j Hid).
  - intros Hk. exact (H k j' Hk).
Qed.

(** *** The reveal flag under the row updates *)

Lemma set_status_reveal s : keeps_reveal (set_status s).
Proof. intros [] H; exact H. Qed.

Lemma set_master_id_reveal m : keeps_reveal (set_master_id m).
Proof. intros [] H; exact H. Qed.

Lemma set_departure_reveal now lat lon url :
  keeps_reveal (set_departure now lat lon url).
Proof. intros [] H; exact H. Qed.

Lemma set_arrival_reveal now j :
  client_phone_revealed (set_arrival now j) = true.
Proof. destruct j; reflexivity. Qed.

Lemma keeps_reveal_compose f g :
  keeps_reveal f -> keeps_reveal g -> keeps_reveal (fun j => f (g j)).
Proof. intros Hf Hg j H. apply Hf, Hg, H. Qed.

Lemma arrival_keeps_reveal now s :
  keeps_reveal (fun j => set_status s (set_arrival now j)).
Proof. intros j _. apply set_status_reveal, set_arrival_reveal. Qed.

Lemma update_job_flag id cond set (js : gmap Z Job) k :
  keeps_reveal set -> flag js k = true ->
  flag (fst (update_job id cond set js)) k = true.
Proof.
  intros Hset. unfold flag. rewrite update_job_lookup.
  destruct (decide (k = id)) as [->|Hne]; [|tauto].
  destruct (js !! id) as [j|]; cbn; [|discriminate].
  destruct (cond j); auto.
Qed.

(** *** Every request *)

Section Steps.
Variable find_available_master : Db -> string -> string -> option Z.

Abbreviation handle := (handle find_available_master).
Abbreviation run := (run find_available_master).

Ltac split_update :=
  match goal with
  | |- context [update_job ?i ?c ?s ?js] =>
    let E := fresh "E" in
    let js' := fresh "js'" in
    let n := fresh "n" in
    destruct (update_job i c s js) as [js' n] eqn:E;
    apply (f_equal fst) in E; cbn [fst] in E; subst js'
  end.

Ltac open_handler :=
  unfold handle, register_master, activate_terminal,
    update_terminal_status, assign_job_to_master, update_job_status,
    process_client_request, terminal_update_job_status, process_payment,
    master_depart, master_arrive.

(** The counter stays above the keys of [jobs]. *)
Lemma handle_jobs_issued now req db :
  jobs_issued db -> jobs_issued (snd (handle now req db)).
Proof.
  intros Hwf. unfold jobs_issued in *.
  destruct req; open_handler;
    repeat match goal with
           | |- context [if ?b then _ else _] => destruct b
           | |- context [match ?o with Some _ => _ | None => _ end] =>
             destruct o
           | |- context [match ?o with inl _ => _ | inr _ => _ end] =>
             destruct o
           | |- context [update_master ?i ?s ?m] =>
             destruct (update_master i s m)
           end;
    try split_update; cbn [snd jobs jobs_seq with_jobs with_masters];
    try exact Hwf;
    try (repeat match goal with
           | |- context [if ?b then _ else _] => destruct b
           end; cbn [snd jobs jobs_seq with_jobs with_masters];
         first [exact Hwf | apply update_job_keys; exact Hwf]).
  all: apply map_Forall_insert_2; [lia|].
  all: eapply map_Forall_impl; [exact Hwf|]; cbn; intros; lia.
Qed.
Ltac row_update :=
  auto using set_status_reveal, set_master_id_reveal, set_departure_reveal,
    keeps_reveal_compose, arrival_keeps_reveal.

(** A request never clears the reveal flag of a job. *)
Lemma handle_revealed now req db id :
  jobs_issued db -> revealed db id = true ->
  revealed (snd (handle now req db)) id = true.
Proof.
  intros Hwf Hrev.
  change (flag (jobs (snd (handle now req db))) id = true).
  change (flag (jobs db) id = true) in Hrev.
  assert (Hfresh : id <> jobs_seq db + 1).
  { unfold flag in Hrev. destruct (jobs db !! id) as [j|] eqn:Hid;
      [|discriminate]. pose proof (Hwf id j Hid) as Hle. cbn in Hle. lia. }
  destruct req; open_handler;
    repeat match goal with
           | |- context [if ?b then _ else _] => destruct b
           | |- context [match ?o with Some _ => _ | None => _ end] =>
             destruct o
           | |- context [match ?o with inl _ => _ | inr _ => _ end] =>
             destruct o
           | |- context [update_master ?i ?s ?m] =>
             destruct (update_master i s m)
           end;
    try split_update; cbn [snd jobs with_jobs with_masters];
    try exact Hrev;
    try (repeat match goal with
           | |- context [if ?b then _ else _] => destruct b
           end; cbn [snd jobs with_jobs with_masters];
         first [exact Hrev
               | apply update_job_flag; [row_update | exact Hrev]]).
  all: unfold flag in *; rewrite lookup_insert_ne by congruence; exact Hrev.
Qed.
Lemma run_jobs_issued reqs db : jobs_issued db -> jobs_issued (run reqs db).
Proof.
  revert db. induction reqs as [|[now req] reqs IH]; intros db Hwf; [exact Hwf|].
  cbn [Platform.run]. apply IH, handle_jobs_issued, Hwf.
Qed.

Lemma run_revealed reqs db id :
  jobs_issued db -> revealed db id = true -> revealed (run reqs db) id = true.
Proof.
  revert db. induction reqs as [|[now req] reqs IH]; intros db Hwf Hrev;
    [exact Hrev|].
  cbn [Platform.run]. apply IH.
  - apply handle_jobs_issued, Hwf.
  - apply handle_revealed; assumption.
Qed.

(** The invariant holds on an empty database, hence in every state the
    handlers can reach from it. *)
Lemma reachable_jobs_issued reqs : jobs_issued (run reqs empty_db).
Proof. apply run_jobs_issued. intros k j Hk. discriminate. Qed.

(** What a request does to the table of transactions. *)
Lemma handle_transactions now req db :
  transactions (snd (handle now req db))
  = match req with
    | ProcessPayment p =>
      if valid_PaymentProcess p
      then transactions db ++ [settlement_record now p db]
      else transactions db
    | _ => transactions db
    end.
Proof.
  destruct req; open_handler;
    repeat match goal with
           | |- context [if negb ?b then _ else _] => destruct b; cbn [negb]
           | |- context [if ?b then _ else _] => destruct b
           | |- context [match ?o with Some _ => _ | None => _ end] =>
             destruct o
           | |- context [match ?o with inl _ => _ | inr _ => _ end] =>
             destruct o
           | |- context [update_master ?i ?s ?m] =>
             destruct (update_master i s m)
           | |- context [update_job ?i ?c ?s ?js] =>
             destruct (update_job i c s js)
           end;
    reflexivity.
Qed.

(** A settlement of a job without a transaction leaves it with exactly the
    record of that settlement, and the transactions of the other jobs as
    they were. *)
Lemma first_settlement now p db :
  valid_PaymentProcess p = true ->
  transactions_of db (pp_job_id p) = [] ->
  transactions_of (snd (handle now (ProcessPayment p) db)) (pp_job_id p)
  = [settlement_record now p db]
  /\ forall id, id <> pp_job_id p ->
       transactions_of (snd (handle now (ProcessPayment p) db)) id
       = transactions_of db id.
Proof.
  intros Hv Hnone. unfold transactions_of in *.
  rewrite handle_transactions, Hv, !filter_app.
  rewrite Hnone, filter_cons, filter_nil.
  destruct (decide _) as [_|Hne]; [|contradiction Hne; reflexivity].
  split; [reflexivity|]. intros id Hid.
  rewrite filter_app, filter_cons, filter_nil.
  destruct (decide _) as [He|_]; [|apply app_nil_r].
  cbn [settlement_record job_id] in He. congruence.
Qed.

(** A valid settlement sets the job it names to "completed", whatever its
    status, if the job exists. *)
Lemma settlement_completes now p db :
  valid_PaymentProcess p = true ->
  status_of (snd (handle now (ProcessPayment p) db)) (pp_job_id p)
  = (fun _ => "completed"%string) <$> status_of db (pp_job_id p).
Proof.
  intros Hv. unfold Platform.handle, process_payment. rewrite Hv.
  cbn [negb]. unfold status_of.
  destruct (update_job _ _ _ _) as [js n] eqn:E.
  apply (f_equal fst) in E. cbn [fst] in E. subst js.
  cbn [snd jobs]. rewrite update_job_lookup.
  destruct (decide _) as [_|Hne]; [|contradiction].
  destruct (jobs db !! pp_job_id p) as [[]|]; reflexivity.
Qed.

(** C5, amended.  A transaction is written by the settlement handler and by
    nothing else: every other request leaves the table of transactions as it
    was, and a settlement request that does not pass validation changes
    nothing.  A valid settlement of a job that has no transaction yet leaves
    it with exactly one, the record of that settlement, touches the
    transactions of no other job, and sets the job to "completed" if the job
    exists, whatever its status: the handler does not ask for a job that is
    in progress. *)
Theorem transactions_written_by_settlement_only now req db :
  match req with
  | ProcessPayment p =>
    if valid_PaymentProcess p
    then
      transactions_of db (pp_job_id p) = [] ->
      transactions_of (snd (handle now req db)) (pp_job_id p)
      = [settlement_record now p db]
      /\ (forall id, id <> pp_job_id p ->
            transactions_of (snd (handle now req db)) id
            = transactions_of db id)
      /\ status_of (snd (handle now req db)) (pp_job_id p)
         = (fun _ => "completed"%string) <$> status_of db (pp_job_id p)
    else snd (handle now req db) = db
  | _ => transactions (snd (handle now req db)) = transactions db
  end.
Proof.
  pose proof (handle_transactions now req db) as Ht.
  destruct req; try exact Ht.
  destruct (valid_PaymentProcess payment) eqn:Hv.
  - intros Hnone.
    destruct (first_settlement now payment db Hv Hnone) as [H1 H2].
    split; [exact H1|]. split; [exact H2|].
    apply settlement_completes, Hv.
  - unfold Platform.handle, process_payment. rewrite Hv. reflexivity.
Qed.

(** C8.  For an existing job the arrive handler succeeds and leaves the
    reveal flag set; invoked again on the same job it succeeds again and the
    flag is still set; and after any further run of requests the flag of
    that job is still set. *)
Theorem master_arrive_idempotent_reveal db job_id j now1 now2 reqs :
  jobs_issued db ->
  jobs db !! job_id = Some j ->
  let first := master_arrive now1 job_id db in
  let second := master_arrive now2 job_id (snd first) in
  succeeded (fst first) = true
  /\ revealed (snd first) job_id = true
  /\ succeeded (fst second) = true
  /\ revealed (snd second) job_id = true
  /\ revealed (run reqs (snd first)) job_id = true.
Proof.
  intros Hwf Hj first second.
  assert (Hstep : forall now d,
             jobs_issued d -> is_Some (jobs d !! job_id) ->
             jobs_issued (snd (master_arrive now job_id d))
             /\ succeeded (fst (master_arrive now job_id d)) = true
             /\ revealed (snd (master_arrive now job_id d)) job_id = true
             /\ is_Some (jobs (snd (master_arrive now job_id d)) !! job_id)).
  { intros now d Hd [jd Hjd].
    split.
    { pose proof (handle_jobs_issued now (MasterArrive job_id) d Hd) as H.
      cbn [Platform.handle] in H.
      destruct (master_arrive now job_id d); exact H. }
    unfold master_arrive, revealed, flag. rewrite Hjd.
    rewrite (update_job_hit _ _ _ _ jd Hjd eq_refl).
    cbn [fst snd succeeded jobs with_jobs]. rewrite lookup_insert_eq.
    split; [reflexivity|]. split; [destruct jd; reflexivity|eauto]. }
  destruct (Hstep now1 db Hwf (ex_intro _ j Hj)) as (Hwf1 & Hs1 & Hr1 & Hj1).
  destruct (Hstep now2 (snd first) Hwf1 Hj1) as (_ & Hs2 & Hr2 & _).
  repeat split; try assumption.
  apply run_revealed; assumption.
Qed.

End Steps.

(** C5 as the specification words it, with a transaction written only by
    the transition from "in_progress" to "completed", fails on the source: a
    job that is still pending is settled, which writes its transaction and
    completes it, and the pair is not a transition of the life cycle. *)
Lemma pending_job_is_settled :
  let db := one_job "pending" None in
  let out := process_payment 10 cash_1000 db in
  Spec.legal_transition "pending" "completed" = false
  /\ status_of db 1 = Some "pending"%string
  /\ transactions_of db 1 = []
  /\ succeeded (fst out) = true
  /\ transactions_of (snd out) 1 = [settlement_record 10 cash_1000 db]
  /\ status_of (snd out) 1 = Some "completed"%string.
Proof. repeat split; vm_compute; reflexivity. Qed.

Lemma transactions_written_by_settlement_only_witness :
  let db := one_job "in_progress" (Some 7) in
  let db' := snd (handle no_master 10 (ProcessPayment cash_1000) db) in
  transactions_of db 1 = []
  /\ transactions_of db' 1 = [settlement_record 10 cash_1000 db]
  /\ (forall id, id <> 1 -> transactions_of db' id = transactions_of db id)
  /\ status_of db' 1 = Some "completed"%string.
Proof.
  intros db db'.
  assert (H0 : transactions_of db 1 = []) by reflexivity.
  split; [exact H0|].
  exact (transactions_written_by_settlement_only no_master 10
           (ProcessPayment cash_1000) db H0).
Defined.

Lemma master_arrive_idempotent_reveal_witness :
  let db := one_job "accepted" (Some 7) in
  let later :=
    [(30, UpdateJobStatus 1 (Some "pending"%string));
     (40, MasterDepart 1 None None ""); (50, ProcessPayment cash_1000)] in
  jobs_issued db
  /\ jobs db !! 1 = Some (sample_job "accepted" (Some 7))
  /\ succeeded (fst (master_arrive 10 1 db)) = true
  /\ revealed (snd (master_arrive 10 1 db)) 1 = true
  /\ succeeded (fst (master_arrive 20 1 (snd (master_arrive 10 1 db)))) = true
  /\ revealed (snd (master_arrive 20 1 (snd (master_arrive 10 1 db)))) 1 = true
  /\ revealed (run no_master later (snd (master_arrive 10 1 db))) 1 = true.
Proof.
  intros db later.
  assert (Hwf : jobs_issued db)
    by (apply (bool_decide_unpack _); vm_compute; exact I).
  split; [exact Hwf|]. split; [reflexivity|].
  apply (master_arrive_idempotent_reveal no_master db 1
           (sample_job "accepted" (Some 7)) 10 20 later).
  - exact Hwf.
  - reflexivity.
Defined.

(** *** Assignment *)

(** C4.  Assigning a job succeeds exactly when the job exists and its status
    is "pending"; it then binds the given master and sets the status to
    "accepted", and any further assignment of that job is refused.  For a job
    that is missing or in any other status the answer is the error 400 and
    the database, hence the status and the master of the job, is unchanged. *)
Theorem assign_job_to_master_guarded job_id master db :
  succeeded (fst (assign_job_to_master job_id master db))
  = match jobs db !! job_id with
    | Some j => String.eqb (status j) "pending"
    | None => false
    end
  /\ match jobs db !! job_id with
     | Some j =>
       if String.eqb (status j) "pending"
       then
         let db' := snd (assign_job_to_master job_id master db) in
         db' = with_jobs db
                 (<[job_id := set_status "accepted" (set_master_id master j)]>
                    (jobs db))
         /\ status_of db' job_id = Some "accepted"%string
         /\ master_of db' job_id = Some master
         /\ forall other,
              assign_job_to_master job_id other db'
              = (HTTPException 400 "Заказ уже назначен или не найден", db')
       else
         assign_job_to_master job_id master db
         = (HTTPException 400 "Заказ уже назначен или не найден", db)
     | None =>
       assign_job_to_master job_id master db
       = (HTTPException 400 "Заказ уже назначен или не найден", db)
     end.
Proof.
  unfold assign_job_to_master.
  destruct (jobs db !! job_id) as [j|] eqn:Hj.
  - destruct (String.eqb (status j) "pending") eqn:Hst.
    + rewrite (update_job_hit _ _ _ _ j Hj Hst). cbn [Z.eqb fst snd succeeded].
      split; [reflexivity|]. split; [reflexivity|].
      unfold status_of, master_of. cbn [jobs with_jobs].
      rewrite lookup_insert_eq. cbn [fmap option_fmap option_map].
      split; [destruct j; reflexivity|]. split; [destruct j; reflexivity|].
      intros other.
      erewrite update_job_miss;
        [reflexivity | apply lookup_insert_eq | destruct j; reflexivity].
    + rewrite (update_job_miss _ _ _ _ j Hj Hst). split; reflexivity.
  - rewrite (update_job_missing _ _ _ _ Hj). split; reflexivity.
Qed.

(** *** Setting the status *)

(** C2 as the specification words it fails on the source: a pending job is set to "completed" by the generic handler, and
    by the terminal handler when called by the master bound to the job, and
    the pair is not a transition of the life cycle. *)
Lemma set_status_pending_to_completed :
  let db := one_job "pending" None in
  let bound := one_job "pending" (Some 7) in
  Spec.legal_transition "pending" "completed" = false
  /\ status_of db 1 = Some "pending"%string
  /\ succeeded (fst (update_job_status 1 (Some "completed"%string) db)) = true
  /\ status_of (snd (update_job_status 1 (Some "completed"%string) db)) 1
     = Some "completed"%string
  /\ succeeded (fst (terminal_update_job_status 7 1 "completed" bound)) = true
  /\ status_of (snd (terminal_update_job_status 7 1 "completed" bound)) 1
     = Some "completed"%string.
Proof. repeat split; vm_compute; reflexivity. Qed.

(** C2, amended.  For an existing job the generic set-status handler
    succeeds exactly when the requested status is one of "pending",
    "accepted", "in_progress", "completed", "cancelled", whatever the current
    status, and it overwrites the status; any other value is refused with
    the error 400 and changes nothing.  The terminal handler validates the
    same set (error 422) and in addition needs the job to be bound to the
    calling master (error 404 otherwise).  No pair of current and new status
    is excluded. *)
Theorem update_job_status_unguarded db job_id j new_status master :
  jobs db !! job_id = Some j ->
  update_job_status job_id (Some new_status) db
  = (if valid_JobStatusUpdate new_status
     then (Ok new_status,
           with_jobs db (<[job_id := set_status new_status j]> (jobs db)))
     else (HTTPException 400 "Неверный статус", db))
  /\ terminal_update_job_status master job_id new_status db
     = (if valid_JobStatusUpdate new_status
        then if bool_decide (master_id j = Some master)
             then (Ok new_status,
                   with_jobs db
                     (<[job_id := set_status new_status j]> (jobs db)))
             else (HTTPException 404 "Заказ не найден", db)
        else (unprocessable, db))
  /\ status (set_status new_status j) = new_status.
Proof.
  intros Hj. unfold update_job_status, terminal_update_job_status.
  change (in_list new_status _) with (valid_JobStatusUpdate new_status).
  destruct (valid_JobStatusUpdate new_status); cbn [negb].
  - rewrite (update_job_hit _ _ _ _ j Hj eq_refl).
    split; [reflexivity|]. split; [|destruct j; reflexivity].
    destruct (bool_decide (master_id j = Some master)) eqn:Hm.
    + rewrite (update_job_hit _ _ _ _ j Hj Hm). reflexivity.
    + rewrite (update_job_miss _ _ _ _ j Hj Hm). reflexivity.
  - repeat split. destruct j; reflexivity.
Qed.

Lemma update_job_status_unguarded_witness :
  jobs (one_job "pending" None) !! 1 = Some (sample_job "pending" None)
  /\ update_job_status 1 (Some "completed"%string) (one_job "pending" None)
     = (Ok "completed"%string,
        with_jobs (one_job "pending" None)
          (<[1 := set_status "completed" (sample_job "pending" None)]>
             (jobs (one_job "pending" None)))).
Proof.
  split; [reflexivity|].
  apply (update_job_status_unguarded (one_job "pending" None) 1
           (sample_job "pending" None) "completed" 7).
  reflexivity.
Defined.

(** C10.  For a job id that is not in the store and a status of the allowed
    set, the generic set-status handler answers with success, never with a
    not-found error, and the database is unchanged. *)
Theorem update_job_status_unknown_job db job_id new_status :
  jobs db !! job_id = None ->
  In new_status
     ["pending"; "accepted"; "in_progress"; "completed"; "cancelled"]%string ->
  update_job_status job_id (Some new_status) db = (Ok new_status, db).
Proof.
  intros Hj Hin. unfold update_job_status.
  rewrite (update_job_missing _ _ _ _ Hj), with_jobs_same.
  cbn in Hin. destruct Hin as [<-|[<-|[<-|[<-|[<-|[]]]]]]; reflexivity.
Qed.

Lemma update_job_status_unknown_job_witness :
  jobs (one_job "pending" None) !! 99 = None
  /\ In "completed"%string
       ["pending"; "accepted"; "in_progress"; "completed"; "cancelled"]%string
  /\ update_job_status 99 (Some "completed"%string) (one_job "pending" None)
     = (Ok "completed"%string, one_job "pending" None).
Proof.
  split; [reflexivity|]. split; [simpl; do 3 right; left; reflexivity|].
  apply (update_job_status_unknown_job (one_job "pending" None) 99 "completed").
  - reflexivity.
  - simpl; do 3 right; left; reflexivity.
Defined.

End LifecycleFacts.

(** ** The fee split *)

Module FeeFacts.
Import Float Py Platform.

(** The cascade of the specification in closed form: 2% to the gateway,
    24.5% to the platform and 73.5% to the master. *)
Lemma cascade_shares (amount : Qc) :
  Spec.gateway_fee amount = (amount * Num.ratio 2 100)%Qc
  /\ Spec.remaining amount = (amount * Num.ratio 98 100)%Qc
  /\ Spec.commission amount = (amount * Num.ratio 245 1000)%Qc
  /\ Spec.earnings amount = (amount * Num.ratio 735 1000)%Qc.
Proof.
  unfold Spec.earnings, Spec.commission, Spec.remaining, Spec.gateway_fee.
  assert (H98 : Num.ratio 98 100 = (1 - Num.ratio 2 100)%Qc)
    by (apply Qc_is_canon; reflexivity).
  assert (H245 : Num.ratio 245 1000
                 = ((1 - Num.ratio 2 100) * Num.ratio 25 100)%Qc)
    by (apply Qc_is_canon; reflexivity).
  assert (H735 : Num.ratio 735 1000
                 = ((1 - Num.ratio 2 100) * (1 - Num.ratio 25 100))%Qc)
    by (apply Qc_is_canon; reflexivity).
  rewrite H98, H245, H735. repeat split; ring.
Qed.

(** C6 as the specification words it, each share of the amount rounded to
    two decimal places, fails on the source: of the amount 1 the master's
    share is 0.735, which rounds to 0.74, and the source returns 0.73.  The
    double the source rounds is the result of binary64 operations and lies
    just below 0.735. *)
Lemma earnings_of_one_round_down :
  let fees := calculate_platform_fee (of_Z 1) in
  Spec.round_to_cents (Spec.earnings (Num.qz 1)) = Num.ratio 74 100
  /\ fee_master_earnings fees = dec 73 2
  /\ fee_master_earnings fees <> dec 74 2
  /\ payment_gateway_fee fees = dec 2 2
  /\ platform_commission fees = dec 24 2.
Proof.
  repeat split; try (vm_compute; reflexivity).
  vm_compute. intros H. discriminate H.
Qed.

(** *** The binary64 figures against the exact cascade, by enumeration *)

Lemma same_eq (x y : float) : Scan.same x y = true -> x = y.
Proof.
  destruct x as [s|s| |s m e], y as [s'|s'| |s' m' e']; cbn [Scan.same];
    try discriminate; try reflexivity; intros H.
  - apply Bool.eqb_prop in H. congruence.
  - apply Bool.eqb_prop in H. congruence.
  - apply andb_prop in H as [H He]. apply andb_prop in H as [Hs Hm].
    apply Bool.eqb_prop in Hs. apply Pos.eqb_eq in Hm. apply Z.eqb_eq in He.
    congruence.
Qed.

Lemma cents_dec (x : float) (k : Z) : Scan.cents x = Some k -> x = dec k 2.
Proof.
  unfold Scan.cents. destruct (Float.value x) as [v|]; [|discriminate].
  destruct (Scan.same _ x) eqn:Hs; [|discriminate].
  intros H. injection H as <-. symmetry. apply same_eq, Hs.
Qed.

Lemma fee_check_sound (n : Z) :
  Scan.fee_check n = true ->
  let fees := calculate_platform_fee (of_Z n) in
  exists g c e : Z,
    payment_gateway_fee fees = dec g 2
    /\ platform_commission fees = dec c 2
    /\ fee_master_earnings fees = dec e 2
    /\ (Z.abs (g - Scan.share_cents Spec.gateway_fee n) <= 1)%Z
    /\ (Z.abs (c - Scan.share_cents Spec.commission n) <= 1)%Z
    /\ (Z.abs (e - Scan.share_cents Spec.earnings n) <= 1)%Z
    /\ (Z.abs (g + c + e - 100 * n) <= 1)%Z.
Proof.
  intros H fees. unfold Scan.fee_check in H. fold fees in H.
  destruct (Scan.cents (payment_gateway_fee fees)) as [g|] eqn:Hg;
    [|discriminate].
  destruct (Scan.cents (platform_commission fees)) as [c|] eqn:Hc;
    [|discriminate].
  destruct (Scan.cents (fee_master_earnings fees)) as [e|] eqn:He;
    [|discriminate].
  apply andb_prop in H as [H H4]. apply andb_prop in H as [H H3].
  apply andb_prop in H as [H1 H2].
  apply Z.leb_le in H1, H2, H3, H4.
  exists g, c, e.
  repeat split; first [apply cents_dec; assumption | assumption].
Qed.

(** Every whole amount from 1 to 2000, one by one. *)
Lemma fee_scan : forallb Scan.fee_check (seqZ 1 2000) = true.
Proof. vm_compute. reflexivity. Qed.

Lemma fee_check_range (n : Z) :
  (1 <= n <= 2000)%Z -> Scan.fee_check n = true.
Proof.
  intros Hn. pose proof fee_scan as H.
  rewrite forallb_forall in H. apply H.
  apply list_elem_of_In, elem_of_seqZ. lia.
Qed.

(** Every even amount from 2 to 2000. *)
Lemma even_scan : forallb Scan.even_check (seqZ 1 1000) = true.
Proof. vm_compute. reflexivity. Qed.

(** C6, amended.  The fee split computes in binary64: the gateway fee is
    the amount times 0.02, the platform commission is 0.25 times what
    remains of the amount after the gateway fee, and the master's earnings
    are what remains after the commission; each of the three is returned
    through [round(x, 2)], which rounds the binary value it is given.  For
    the amount 1000 the figures are 20.00, 245.00 and 735.00, and for every
    whole amount from 1 to 2000 each figure is a whole number of cents within
    one cent of the exact share rounded to cents. *)
Theorem calculate_platform_fee_cascade :
  (forall amount : float,
      let gateway := Float.fmul amount (dec 2 2) in
      let remaining := Float.fsub amount gateway in
      let commission := Float.fmul remaining (dec 25 2) in
      let earnings := Float.fsub remaining commission in
      calculate_platform_fee amount
      = {| total := amount;
           payment_gateway_fee := Float.fround gateway 2;
           platform_commission := Float.fround commission 2;
           fee_master_earnings := Float.fround earnings 2 |})
  /\ (let fees := calculate_platform_fee (of_Z 1000) in
      payment_gateway_fee fees = of_Z 20
      /\ Float.fsub (of_Z 1000) (Float.fmul (of_Z 1000) (dec 2 2)) = of_Z 980
      /\ platform_commission fees = of_Z 245
      /\ fee_master_earnings fees = of_Z 735)
  /\ (forall n : Z,
        (1 <= n <= 2000)%Z ->
        let fees := calculate_platform_fee (of_Z n) in
        exists g c e : Z,
          payment_gateway_fee fees = dec g 2
          /\ platform_commission fees = dec c 2
          /\ fee_master_earnings fees = dec e 2
          /\ (Z.abs (g - Scan.share_cents Spec.gateway_fee n) <= 1)%Z
          /\ (Z.abs (c - Scan.share_cents Spec.commission n) <= 1)%Z
          /\ (Z.abs (e - Scan.share_cents Spec.earnings n) <= 1)%Z).
Proof.
  split; [intros amount; reflexivity|].
  split; [repeat split; vm_compute; reflexivity|].
  intros n Hn fees.
  destruct (fee_check_sound n (fee_check_range n Hn))
    as (g & c & e & Hg & Hc & He & H1 & H2 & H3 & _).
  exists g, c, e. repeat split; assumption.
Qed.

Lemma calculate_platform_fee_cascade_witness :
  let fees := calculate_platform_fee (of_Z 1001) in
  (1 <= 1001 <= 2000)%Z
  /\ exists g c e : Z,
       payment_gateway_fee fees = dec g 2
       /\ platform_commission fees = dec c 2
       /\ fee_master_earnings fees = dec e 2
       /\ (Z.abs (g - Scan.share_cents Spec.gateway_fee 1001) <= 1)%Z
       /\ (Z.abs (c - Scan.share_cents Spec.commission 1001) <= 1)%Z
       /\ (Z.abs (e - Scan.share_cents Spec.earnings 1001) <= 1)%Z.
Proof.
  intros fees. split; [lia|].
  destruct calculate_platform_fee_cascade as (_ & _ & H).
  apply (H 1001%Z). lia.
Defined.

End FeeFacts.

(** * Further properties *)

(** ** The pricing engine: what a quote records *)

Module PricingMore.
Import Float Py Pricing PyFacts PricingFacts.

(** Rounding to two decimals leaves the constants of the three tables as
    they are. *)
Lemma table_multipliers_rounded :
  (forall u, Float.fround (URGENCY_MULTIPLIERS u) 2 = URGENCY_MULTIPLIERS u)
  /\ (forall t, Float.fround (TIME_MULTIPLIERS t) 2 = TIME_MULTIPLIERS t)
  /\ (forall d,
        Float.fround (DISTRICT_MULTIPLIERS d) 2 = DISTRICT_MULTIPLIERS d).
Proof.
  split; [|split]; intros []; vm_compute; reflexivity.
Qed.

(** X2.  Which multipliers a quote records, in which order and with which
    values: the urgency unless normal, the time of day for evening and night
    and the district outside the centre, each with the constant of its
    table, and beyond 10 km the distance surcharge rounded to two
    decimals. *)
Theorem recorded_multipliers_shape (f : PriceFactors) (r : PriceResult) :
  calculate f = inr r ->
  multipliers r
  = (match urgency f with
     | NORMAL => []
     | u => [("urgency"%string, URGENCY_MULTIPLIERS u)]
     end)
    ++ (match time_of_day f with
        | MORNING | DAY => []
        | t => [("time_of_day"%string, TIME_MULTIPLIERS t)]
        end)
    ++ (match district f with
        | CENTER => []
        | d => [("district"%string, DISTRICT_MULTIPLIERS d)]
        end)
    ++ (if Py.gt (Flt (distance_km f)) (Int 10)
        then [("distance"%string,
               Float.fround
                 (Float.fadd (dec 10 1)
                    (Float.fmul (Float.fsub (distance_km f) (of_Z 10))
                               (dec 2 2))) 2)]
        else []).
Proof.
  intros Hcalc.
  destruct (calculate_steps f r Hcalc)
    as (base & sub & p & da & fin & percent & _ & _ & _ & _ & _ & _ & ->).
  cbn [multipliers]. rewrite calculate_multipliers_cases.
  destruct table_multipliers_rounded as (Hu & Ht & Hd).
  rewrite !map_app.
  f_equal; [|f_equal; [|f_equal]].
  - destruct (urgency f) eqn:E; cbn [map fst snd]; rewrite ?Hu; reflexivity.
  - destruct (time_of_day f) eqn:E; cbn [map fst snd]; rewrite ?Ht;
      reflexivity.
  - destruct (district f) eqn:E; cbn [map fst snd]; rewrite ?Hd; reflexivity.
  - destruct (Py.gt _ _); reflexivity.
Qed.

(** At 10.1 km the surcharge is recorded as 1.0, although the price was
    multiplied by the double of 1.002. *)
Lemma recorded_multipliers_shape_witness :
  let f := setattr (default_factors ELECTRICAL) (kw_distance_km (dec 101 1)) in
  exists r,
    calculate f = inr r
    /\ multipliers r = [("distance"%string, dec 10 1)]
    /\ _calculate_multipliers f <> [("distance"%string, dec 10 1)].
Proof.
  intros f.
  assert (Hr : in_range f) by (repeat constructor).
  destruct (calculate_returns f Hr) as [r Hc].
  exists r. split; [exact Hc|]. split.
  - rewrite (recorded_multipliers_shape f r Hc). vm_compute. reflexivity.
  - vm_compute. intros H. discriminate H.
Defined.

(** X4.  Outside the electrical category the counts of outlets, switches and
    chandeliers add nothing to the price, and the quote itemises no
    installation points, yet the counts still select the volume discount. *)
Theorem counts_outside_electrical (f : PriceFactors) (r : PriceResult) :
  category f <> ELECTRICAL ->
  calculate f = inr r ->
  _calculate_points_price f = inr 0%Z
  /\ points_price r = Int 0
  /\ installation_points (breakdown r) = None
  /\ Py.mul (Flt (Spec.volume_discount
                    (outlets f + switches f + chandeliers f))) (Int 100)
     = inr (discount_percent r).
Proof.
  intros Hcat Hcalc.
  assert (Hp : Spec.installation_points_price f = 0%Z).
  { unfold Spec.installation_points_price.
    destruct (category f); [contradiction|reflexivity..]. }
  destruct (calculate_steps f r Hcalc)
    as (base & sub & p & da & fin & percent
        & _ & _ & _ & _ & _ & Hpc & ->).
  rewrite points_price_total, Hp.
  rewrite get_volume_discount_tiers in Hpc.
  repeat split; try reflexivity. exact Hpc.
Qed.

(** A plumbing job with 25 outlets is quoted 1440, the base rate 1800 less
    20%. *)
Lemma counts_outside_electrical_witness :
  let f := setattr (default_factors PLUMBING) (kw_outlets 25) in
  category f <> ELECTRICAL
  /\ exists r,
       calculate f = inr r
       /\ points_price r = Int 0
       /\ discount_percent r = Flt (of_Z 20)
       /\ total_price r = Flt (of_Z 1440).
Proof.
  intros f.
  assert (Hcat : category f <> ELECTRICAL) by discriminate.
  split; [exact Hcat|].
  assert (Hr : in_range f) by (repeat constructor).
  destruct (calculate_returns f Hr) as [r Hc].
  exists r. split; [exact Hc|].
  destruct (counts_outside_electrical f r Hcat Hc) as (_ & Hp & _ & Hd).
  split; [exact Hp|].
  assert (H : total_price <$> calculate f = inr (Flt (of_Z 1440)))
    by (vm_compute; reflexivity).
  rewrite Hc in H. injection H as H.
  split; [|exact H].
  vm_compute in Hd. injection Hd as Hd. symmetry. exact Hd.
Defined.

End PricingMore.

(** ** The estimator and the quick templates: further properties *)

Module EstimateMore.
Import Float Py Pricing PyFacts PricingFacts.

Lemma count_from_bounds sub skip s :
  (0 <= Text.count_from sub skip s <= Z.of_nat (length s))%Z.
Proof.
  revert skip. induction s as [|c s IH]; intros skip; cbn [Text.count_from].
  - cbn. lia.
  - rewrite length_cons, Nat2Z.inj_succ.
    destruct skip as [|k].
    + destruct (Text.starts_with sub (c :: s)).
      * pose proof (IH (pred (length sub))). lia.
      * pose proof (IH O). lia.
    + pose proof (IH k). lia.
Qed.

Lemma count_bounds s sub : (0 <= Text.count s sub <= Text.len s)%Z.
Proof. apply count_from_bounds. Qed.

(** [calculate] never reads the description. *)
Lemma calculate_ignores_description f d :
  calculate (setattr f (kw_description d)) = calculate f.
Proof. destruct f. reflexivity. Qed.

(** The fields of the estimated factors. *)
Lemma estimate_fields d c :
  let f := estimate_factors d c in
  let l := Text.lower d in
  let panel :=
    Text.any_in [kw "щит"; kw "автомат"; kw "380"; kw "трёхфазн"] l in
  let by_length :=
    if (Text.len d >? 200)%Z then 3%Z
    else if (Text.len d >? 100)%Z then 2%Z else 1%Z in
  (category f = PLUMBING \/ category f = APPLIANCE
   \/ category f = HVAC \/ category f = ELECTRICAL)
  /\ outlets f = Text.count l (kw "розетк")
  /\ switches f = Text.count l (kw "выключател")
  /\ chandeliers f = Text.count l (kw "люстр")
  /\ high_voltage f = panel
  /\ complexity f = (if panel then Z.max by_length 4 else by_length)
  /\ estimated_hours f
     = (if (complexity f >=? 3)%Z
        then Float.fadd
               (if (outlets f + switches f >? 5)%Z then dec 20 1
                else dec 10 1) (dec 10 1)
        else (if (outlets f + switches f >? 5)%Z then dec 20 1
              else dec 10 1))
  /\ time_of_day f = DAY /\ district f = CENTER /\ distance_km f = dec 0 1
  /\ height_work f = false /\ outdoors f = false.
Proof.
  intros f l panel by_length. unfold f, estimate_factors.
  fold l. fold panel. fold by_length.
  destruct panel; cbn [category outlets switches chandeliers high_voltage
                       complexity estimated_hours time_of_day district
                       distance_km height_work outdoors];
    (split; [repeat match goal with
                    | |- context [if ?b then _ else _] => destruct b
                    end; tauto|]);
    repeat split.
Qed.

(** X5.  The estimator classifies every request as plumbing, appliance, HVAC
    or electrical: the categories "general" and "emergency" and their base
    rates are never used.  Of the hint only "plumbing", "appliance" and
    "hvac" are read: with any other hint, "general" included, the estimate
    is the one for "electrical". *)
Theorem estimate_never_general d c :
  category (estimate_factors d c) <> GENERAL
  /\ category (estimate_factors d c) <> EMERGENCY
  /\ (c <> kw "plumbing" -> c <> kw "appliance" -> c <> kw "hvac" ->
      estimate_from_description d c
      = estimate_from_description d (kw "electrical")).
Proof.
  destruct (estimate_fields d c) as (Hcat & _).
  split; [destruct Hcat as [H|[H|[H|H]]]; rewrite H; discriminate|].
  split; [destruct Hcat as [H|[H|[H|H]]]; rewrite H; discriminate|].
  intros Hp Ha Hh. unfold estimate_from_description. f_equal.
  unfold estimate_factors.
  rewrite !(bool_decide_eq_false_2 (c = _)) by assumption.
  reflexivity.
Qed.

Lemma estimate_never_general_witness :
  let d := Text.of_string "Нужно починить дверной замок" in
  kw "general" <> kw "plumbing" /\ kw "general" <> kw "appliance"
  /\ kw "general" <> kw "hvac"
  /\ category (estimate_factors d (kw "general")) = ELECTRICAL
  /\ estimate_from_description d (kw "general")
     = estimate_from_description d (kw "electrical").
Proof.
  intros d.
  assert (H1 : kw "general" <> kw "plumbing") by (vm_compute; discriminate).
  assert (H2 : kw "general" <> kw "appliance") by (vm_compute; discriminate).
  assert (H3 : kw "general" <> kw "hvac") by (vm_compute; discriminate).
  split; [exact H1|]. split; [exact H2|]. split; [exact H3|].
  split; [vm_compute; reflexivity|].
  destruct (estimate_never_general d (kw "general")) as (_ & _ & H).
  exact (H H1 H2 H3).
Defined.

(** X6.  The estimator reads a description only through its lower-case form
    and its length: two descriptions of the same length with the same
    lower-case form get the same quote (the whole result, not only the
    total). *)
Theorem estimate_case_insensitive d1 d2 c :
  Text.lower d1 = Text.lower d2 ->
  Text.len d1 = Text.len d2 ->
  estimate_from_description d1 c = estimate_from_description d2 c.
Proof.
  intros Hl Hlen.
  unfold estimate_from_description.
  rewrite <- (calculate_ignores_description (estimate_factors d2 c) d1).
  f_equal. unfold estimate_factors. rewrite Hl, Hlen.
  destruct (Text.any_in [kw "щит"; kw "автомат"; kw "380"; kw "трёхфазн"]
              (Text.lower d2)); reflexivity.
Qed.

Lemma estimate_case_insensitive_witness :
  Text.lower (Text.of_string "СРОЧНО: Искрит РОЗЕТКА")
  = Text.lower (Text.of_string "срочно: искрит розетка")
  /\ Text.len (Text.of_string "СРОЧНО: Искрит РОЗЕТКА")
     = Text.len (Text.of_string "срочно: искрит розетка")
  /\ estimate_from_description
       (Text.of_string "СРОЧНО: Искрит РОЗЕТКА") (kw "electrical")
     = estimate_from_description
         (Text.of_string "срочно: искрит розетка") (kw "electrical").
Proof.
  split; [vm_compute; reflexivity|].
  split; [vm_compute; reflexivity|].
  apply (estimate_case_insensitive
           (Text.of_string "СРОЧНО: Искрит РОЗЕТКА")
           (Text.of_string "срочно: искрит розетка") (kw "electrical")).
  - vm_compute; reflexivity.
  - vm_compute; reflexivity.
Defined.

(** X7.  The ranges of the estimated factors: the complexity is between 1
    and 4 and is 4 exactly when the high-voltage flag is set; each item count
    is between 0 and the length of the lower-cased description; the estimated
    hours are between 1 and 3; and the only multiplier an estimate can carry
    is the urgency. *)
Theorem estimate_ranges d c :
  let f := estimate_factors d c in
  (1 <= complexity f <= 4)%Z
  /\ high_voltage f = (complexity f =? 4)%Z
  /\ (0 <= outlets f <= Text.len (Text.lower d))%Z
  /\ (0 <= switches f <= Text.len (Text.lower d))%Z
  /\ (0 <= chandeliers f <= Text.len (Text.lower d))%Z
  /\ (Float.leb (of_Z 1) (estimated_hours f) = true
      /\ Float.leb (estimated_hours f) (of_Z 3) = true)
  /\ _calculate_multipliers f
     = match urgency f with
       | NORMAL => []
       | u => [("urgency"%string, URGENCY_MULTIPLIERS u)]
       end.
Proof.
  intros f.
  destruct (estimate_fields d c)
    as (_ & Ho & Hs & Hch & Hhv & Hc & Hh & Ht & Hd & Hkm & _).
  fold f in Ho, Hs, Hch, Hhv, Hc, Hh, Ht, Hd, Hkm.
  assert (Hrange : (1 <= complexity f <= 4)%Z
                   /\ high_voltage f = (complexity f =? 4)%Z).
  { rewrite Hhv, Hc.
    destruct (Text.any_in _ _);
      destruct (Text.len d >? 200)%Z; try destruct (Text.len d >? 100)%Z;
      cbn; split; (lia || reflexivity). }
  destruct Hrange as [Hr1 Hr2].
  split; [exact Hr1|]. split; [exact Hr2|].
  rewrite Ho, Hs, Hch.
  do 3 (split; [apply count_bounds|]).
  split.
  - rewrite Hh.
    destruct (complexity f >=? 3)%Z, (outlets f + switches f >? 5)%Z;
      split; vm_compute; reflexivity.
  - rewrite calculate_multipliers_cases, Ht, Hd, Hkm.
    destruct (urgency f); reflexivity.
Qed.

(** X8.  A quick-price call touches the template it names and no other:
    every other entry of the shared dictionary is as before, no entry is added
    or removed, and a call without overrides, or for an unknown name, leaves
    the whole dictionary unchanged. *)
Theorem get_quick_price_touches_one name kwargs
    (ts : gmap string PriceFactors) other :
  snd (get_quick_price name kwargs ts) !! other
  = (if decide (other = name)
     then fold_left setattr kwargs <$> ts !! name
     else ts !! other)
  /\ dom (snd (get_quick_price name kwargs ts)) = dom ts
  /\ snd (get_quick_price name [] ts) = ts.
Proof.
  assert (Hsnd : forall kws,
             snd (get_quick_price name kws ts)
             = match ts !! name with
               | Some t => <[name := fold_left setattr kws t]> ts
               | None => ts
               end).
  { intros kws. unfold get_quick_price.
    destruct (ts !! name) as [t|]; reflexivity. }
  rewrite !Hsnd.
  destruct (ts !! name) as [t|] eqn:Ht.
  - split; [|split].
    + destruct (decide (other = name)) as [->|Hne].
      * rewrite lookup_insert_eq. reflexivity.
      * rewrite lookup_insert_ne by congruence. reflexivity.
    + rewrite dom_insert_L.
      apply subseteq_union_1_L, singleton_subseteq_l, elem_of_dom. eauto.
    + cbn [fold_left]. apply insert_id, Ht.
  - split; [|split; reflexivity].
    destruct (decide (other = name)) as [->|Hne]; [exact Ht|reflexivity].
Qed.

End EstimateMore.

(** ** The fee split: what is conserved *)

Module FeeMore.
Import Float Py Platform FeeFacts.
Local Open Scope Z_scope.

(** X9.  For every whole amount from 1 to 2000 the three figures of the fee
    split are whole numbers of cents, and they add up to the amount give or
    take one cent: rounding the three independently can lose or gain a
    cent, and no more. *)
Theorem fee_split_conserves (n : Z) :
  1 <= n <= 2000 ->
  let fees := calculate_platform_fee (of_Z n) in
  exists g c e : Z,
    payment_gateway_fee fees = dec g 2
    /\ platform_commission fees = dec c 2
    /\ fee_master_earnings fees = dec e 2
    /\ Z.abs (g + c + e - 100 * n) <= 1.
Proof.
  intros Hn fees.
  destruct (fee_check_sound n (fee_check_range n Hn))
    as (g & c & e & Hg & Hc & He & _ & _ & _ & Hsum).
  exists g, c, e. repeat split; assumption.
Qed.

(** Of the amount 5 a cent is gained: 0.10, 1.23 and 3.68 add up to 5.01. *)
Lemma fee_split_conserves_witness :
  let fees := calculate_platform_fee (of_Z 5) in
  1 <= 5 <= 2000
  /\ payment_gateway_fee fees = dec 10 2
  /\ platform_commission fees = dec 123 2
  /\ fee_master_earnings fees = dec 368 2
  /\ exists g c e : Z,
       payment_gateway_fee fees = dec g 2
       /\ platform_commission fees = dec c 2
       /\ fee_master_earnings fees = dec e 2
       /\ Z.abs (g + c + e - 100 * 5) <= 1.
Proof.
  intros fees. split; [lia|].
  split; [vm_compute; reflexivity|].
  split; [vm_compute; reflexivity|].
  split; [vm_compute; reflexivity|].
  apply (fee_split_conserves 5). lia.
Defined.

(** X10.  For an even whole amount up to 2000 nothing is lost: the gateway
    fee is exactly 2%, the commission 24.5% and the earnings 73.5% of the
    amount, in whole cents, and the three add up to the amount. *)
Theorem fee_split_exact_on_even (k : Z) :
  1 <= k <= 1000 ->
  let fees := calculate_platform_fee (of_Z (2 * k)) in
  payment_gateway_fee fees = dec (4 * k) 2
  /\ platform_commission fees = dec (49 * k) 2
  /\ fee_master_earnings fees = dec (147 * k) 2
  /\ 4 * k + 49 * k + 147 * k = 100 * (2 * k).
Proof.
  intros Hk fees.
  pose proof even_scan as H. rewrite forallb_forall in H.
  assert (Hin : In k (seqZ 1 1000))
    by (apply list_elem_of_In, elem_of_seqZ; lia).
  specialize (H k Hin). unfold Scan.even_check in H. fold fees in H.
  apply andb_prop in H as [H He]. apply andb_prop in H as [Hg Hc].
  apply same_eq in Hg, Hc, He.
  repeat split; try assumption. lia.
Qed.

Lemma fee_split_exact_on_even_witness :
  let fees := calculate_platform_fee (of_Z 1850) in
  1 <= 925 <= 1000
  /\ payment_gateway_fee fees = dec 3700 2
  /\ platform_commission fees = dec 45325 2
  /\ fee_master_earnings fees = dec 135975 2.
Proof.
  intros fees. split; [lia|].
  destruct (fee_split_exact_on_even 925) as (Hg & Hc & He & _); [lia|].
  repeat split; assumption.
Defined.

End FeeMore.

(** ** The job life cycle: further properties *)

Module LifecycleMore.
Import Float Py Platform Store Invariants PyFacts LifecycleFacts.
Local Open Scope Z_scope.

Lemma update_job_field {A} (proj : Job -> A) id cond set (js : gmap Z Job) k :
  (forall j, proj (set j) = proj j) ->
  proj <$> fst (update_job id cond set js) !! k = proj <$> js !! k.
Proof.
  intros Hset. rewrite update_job_lookup.
  destruct (decide (k = id)) as [->|Hne]; [|reflexivity].
  destruct (js !! id) as [j|]; [|reflexivity].
  cbn. destruct (cond j); rewrite ?Hset; reflexivity.
Qed.

Lemma update_job_snd id cond set (js : gmap Z Job) :
  snd (update_job id cond set js) = 0 ->
  fst (update_job id cond set js) = js.
Proof.
  unfold update_job. destruct (js !! id) as [j|]; [|reflexivity].
  destruct (cond j); [discriminate|reflexivity].
Qed.

Lemma with_masters_same db : with_masters db (masters db) = db.
Proof. destruct db; reflexivity. Qed.

Section Steps.
Variable find_available_master : Db -> string -> string -> option Z.

Abbreviation handle := (handle find_available_master).
Abbreviation run := (run find_available_master).

Ltac open_handler :=
  unfold Platform.handle, register_master, activate_terminal,
    update_terminal_status, assign_job_to_master, update_job_status,
    process_client_request, terminal_update_job_status, process_payment,
    master_depart, master_arrive.

(** X11.  A request that is answered with an error leaves the database
    exactly as it was. *)
Theorem failed_request_changes_nothing now req db :
  fst (handle now req db) = false -> snd (handle now req db) = db.
Proof.
  destruct req; open_handler;
    repeat match goal with
           | |- context [if negb ?b then _ else _] => destruct b; cbn [negb]
           | |- context [if bool_decide ?P then _ else _] =>
             destruct (bool_decide P)
           | |- context [match ?o with Some _ => _ | None => _ end] =>
             destruct o
           | |- context [match ?o with inl _ => _ | inr _ => _ end] =>
             destruct o
           | |- context [update_master ?i ?s ?m] =>
             destruct (update_master i s m) as [? []]
           | |- context [update_job ?i ?c ?s ?js] =>
             destruct (update_job i c s js) as [? []]
           end;
    cbn; intros H; try discriminate H; reflexivity.
Qed.

(** *** What a request can change in a job that exists *)

Lemma set_status_record s j : client_record (set_status s j) = client_record j.
Proof. destruct j; reflexivity. Qed.

Lemma set_master_record m j :
  client_record (set_master_id m j) = client_record j.
Proof. destruct j; reflexivity. Qed.

Lemma set_departure_record now lat lon url j :
  client_record (set_departure now lat lon url j) = client_record j.
Proof. destruct j; reflexivity. Qed.

Lemma set_arrival_record now j :
  client_record (set_arrival now j) = client_record j.
Proof. destruct j; reflexivity. Qed.

Ltac split_update :=
  match goal with
  | |- context [update_job ?i ?c ?s ?js] =>
    let E := fresh "E" in
    let js' := fresh "js'" in
    let n := fresh "n" in
    destruct (update_job i c s js) as [js' n] eqn:E;
    apply (f_equal fst) in E; cbn [fst] in E; subst js'
  end.

Ltac walk :=
  repeat match goal with
         | |- context [if negb ?b then _ else _] => destruct b; cbn [negb]
         | |- context [if bool_decide ?P then _ else _] =>
           destruct (bool_decide P)
         | |- context [update_master ?i ?s ?m] =>
           destruct (update_master i s m)
         | |- context [calculate_pricing ?c ?d] =>
           destruct (calculate_pricing c d)
         end.

(** The client's columns of a job, and the job itself, survive every
    request. *)
Lemma handle_client_record now req db id j :
  jobs_issued db -> jobs db !! id = Some j ->
  client_record <$> jobs (snd (handle now req db)) !! id
  = Some (client_record j).
Proof.
  intros Hwf Hj.
  assert (Hfresh : id <> jobs_seq db + 1).
  { pose proof (Hwf id j Hj) as Hle. cbn in Hle. lia. }
  assert (Hnow : client_record <$> jobs db !! id = Some (client_record j))
    by (rewrite Hj; reflexivity).
  destruct req; open_handler; walk;
    try (destruct new_status as [new_status|]; walk);
    try split_update;
    repeat match goal with
           | |- context [match jobs db !! ?i with Some _ => _ | None => _ end]
             => destruct (jobs db !! i)
           end;
    cbn [snd jobs with_jobs with_masters];
    try exact Hnow;
    try (destruct (_ =? 0); cbn [snd jobs with_jobs]; try exact Hnow);
    try (rewrite update_job_field; [exact Hnow|];
         intros ?;
         rewrite ?set_status_record, ?set_master_record,
           ?set_departure_record, ?set_arrival_record; reflexivity).
  rewrite lookup_insert_ne by congruence. exact Hnow.
Qed.

(** X12.  A job is never deleted and the columns that came from the client
    (name, phone, category, description, address, estimated price, creation
    time) are never rewritten, whatever requests follow. *)
Theorem client_record_is_permanent reqs db id j :
  jobs_issued db -> jobs db !! id = Some j ->
  exists j',
    jobs (run reqs db) !! id = Some j' /\ client_record j' = client_record j.
Proof.
  revert db j. induction reqs as [|[now req] reqs IH]; intros db j Hwf Hj.
  - exists j. split; [exact Hj|reflexivity].
  - cbn [Platform.run].
    pose proof (handle_client_record now req db id j Hwf Hj) as Hstep.
    destruct (jobs (snd (handle now req db)) !! id) as [j1|] eqn:Hj1;
      [|discriminate].
    assert (Hrec : client_record j1 = client_record j)
      by (cbn [fmap option_fmap option_map] in Hstep; congruence).
    destruct (IH _ j1 (handle_jobs_issued _ now req db Hwf) Hj1)
      as (j' & Hj' & Hrec').
    exists j'. split; [exact Hj'|congruence].
Qed.

(** *** The statuses a job can take *)

Lemma valid_status_known s :
  valid_JobStatusUpdate s = true -> known_status s = true.
Proof.
  unfold valid_JobStatusUpdate, known_status, in_list. cbn [existsb].
  repeat match goal with
         | |- context [String.eqb s ?k] => destruct (String.eqb s k)
         end; cbn; congruence.
Qed.

Lemma update_job_forall (P : Job -> Prop) id cond set (js : gmap Z Job) :
  (forall j, P (set j)) ->
  map_Forall (fun _ j => P j) js ->
  map_Forall (fun _ j => P j) (fst (update_job id cond set js)).
Proof.
  intros Hset H k j'. rewrite update_job_lookup.
  destruct (decide (k = id)) as [->|Hne]; [|apply H].
  destruct (js !! id) as [j|] eqn:Hid; [|discriminate].
  cbn. destruct (cond j); intros [= <-]; [apply Hset|exact (H id j Hid)].
Qed.

Lemma status_set_status s j : status (set_status s j) = s.
Proof. destruct j; reflexivity. Qed.

Ltac walk_eqn :=
  repeat match goal with
         | |- context [if negb ?b then _ else _] =>
           destruct b eqn:?; cbn [negb]
         | |- context [if bool_decide ?P then _ else _] =>
           destruct (bool_decide P)
         | |- context [update_master ?i ?s ?m] =>
           destruct (update_master i s m)
         | |- context [calculate_pricing ?c ?d] =>
           destruct (calculate_pricing c d)
         end.

Lemma handle_statuses_known now req db :
  statuses_known db -> statuses_known (snd (handle now req db)).
Proof.
  intros Hk. unfold statuses_known in *.
  destruct req; open_handler; walk_eqn;
    try (destruct new_status as [new_status|]; walk_eqn);
    try split_update;
    repeat match goal with
           | |- context [match jobs db !! ?i with Some _ => _ | None => _ end]
             => destruct (jobs db !! i)
           end;
    cbn [snd jobs with_jobs with_masters];
    try exact Hk;
    try (destruct (_ =? 0); cbn [snd jobs with_jobs]; try exact Hk);
    try (apply update_job_forall; [|exact Hk]; intros ?;
         rewrite status_set_status;
         first [reflexivity | apply valid_status_known; assumption]).
  apply map_Forall_insert_2; [|exact Hk].
  cbn [status]. destruct (match find_available_master _ _ _ with
                          | Some m => negb (m =? 0) | None => false end);
    reflexivity.
Qed.

(** X13.  The status of a job is always one of seven values: the five the
    set-status operation accepts, and "on-the-way" and "arrived", which only
    the depart and arrive handlers write.  No request takes a job outside
    this set. *)
Theorem statuses_stay_known reqs db :
  statuses_known db -> statuses_known (run reqs db).
Proof.
  revert db. induction reqs as [|[now req] reqs IH]; intros db Hk;
    [exact Hk|].
  cbn [Platform.run]. apply IH, handle_statuses_known, Hk.
Qed.

(** *** The reveal flag is set by arrival only *)

Lemma flag_set_status s j :
  client_phone_revealed (set_status s j) = client_phone_revealed j.
Proof. destruct j; reflexivity. Qed.

Lemma flag_set_master m j :
  client_phone_revealed (set_master_id m j) = client_phone_revealed j.
Proof. destruct j; reflexivity. Qed.

Lemma flag_set_departure now lat lon url j :
  client_phone_revealed (set_departure now lat lon url j)
  = client_phone_revealed j.
Proof. destruct j; reflexivity. Qed.

Lemma flag_unchanged id cond set (js : gmap Z Job) k :
  (forall j, client_phone_revealed (set j) = client_phone_revealed j) ->
  flag (fst (update_job id cond set js)) k = flag js k.
Proof.
  intros Hset. unfold flag.
  pose proof (update_job_field client_phone_revealed id cond set js k Hset)
    as H.
  destruct (fst (update_job id cond set js) !! k),
    (js !! k); cbn in H; congruence.
Qed.

Lemma handle_reveal_source now req db id :
  revealed (snd (handle now req db)) id = true ->
  revealed db id = true \/ req = MasterArrive id.
Proof.
  unfold revealed.
  destruct req; open_handler; walk;
    try (destruct new_status as [new_status|]; walk);
    try split_update;
    repeat match goal with
           | |- context [match jobs db !! ?i with Some _ => _ | None => _ end]
             => destruct (jobs db !! i)
           end;
    cbn [snd jobs with_jobs with_masters];
    try (intros H; left; exact H);
    try (destruct (_ =? 0); cbn [snd jobs with_jobs];
         try (intros H; left; exact H));
    try (rewrite flag_unchanged;
         [intros H; left; exact H|];
         intros ?;
         rewrite ?flag_set_status, ?flag_set_master, ?flag_set_departure;
         reflexivity).
  - unfold flag. intros H.
    destruct (decide (id = jobs_seq db + 1)) as [->|Hne].
    + rewrite lookup_insert_eq in H. discriminate H.
    + rewrite lookup_insert_ne in H by congruence. left. exact H.
  - match goal with
    | |- context [update_job ?i _ _ _] =>
      destruct (decide (id = i)) as [->|Hne]; [right; reflexivity|];
      intros H; left; unfold flag in *;
      rewrite update_job_lookup in H;
      destruct (decide (id = i)); [contradiction|exact H]
    end.
Qed.

(** X14.  The contact of a client is revealed by an arrival and by nothing
    else: if the reveal flag of a job is set after a run of requests, it was
    set before the run or the run contains an arrive request for that job. *)
Theorem revealed_only_by_arrival reqs db id :
  revealed (run reqs db) id = true ->
  revealed db id = true \/ exists now, In (now, MasterArrive id) reqs.
Proof.
  revert db. induction reqs as [|[now req] reqs IH]; intros db H.
  - left. exact H.
  - cbn [Platform.run] in H. destruct (IH _ H) as [Hstep|[n Hin]].
    + destruct (handle_reveal_source now req db id Hstep) as [Hdb| ->].
      * left. exact Hdb.
      * right. exists now. left. reflexivity.
    + right. exists n. right. exact Hin.
Qed.

(** *** Who rebinds the master *)

Lemma master_set_status s j : master_id (set_status s j) = master_id j.
Proof. destruct j; reflexivity. Qed.

Lemma master_set_departure now lat lon url j :
  master_id (set_departure now lat lon url j) = master_id j.
Proof. destruct j; reflexivity. Qed.

Lemma master_set_arrival now j : master_id (set_arrival now j) = master_id j.
Proof. destruct j; reflexivity. Qed.

Lemma master_set_master m j : master_id (set_master_id m j) = m.
Proof. destruct j; reflexivity. Qed.

(** X15.  The master of an existing job is rebound by a successful
    assignment and by nothing else: setting the status (to "cancelled" or
    back to "pending" included), a payment, a departure or an arrival all
    leave the binding as it was. *)
Theorem master_rebound_by_assignment_only now req db id j :
  jobs_issued db -> jobs db !! id = Some j ->
  master_of (snd (handle now req db)) id
  = Some (match req with
          | AssignJob i m =>
            if (i =? id) && String.eqb (status j) "pending"
            then m else master_id j
          | _ => master_id j
          end).
Proof.
  intros Hwf Hj. unfold master_of.
  assert (Hfresh : id <> jobs_seq db + 1).
  { pose proof (Hwf id j Hj) as Hle. cbn in Hle. lia. }
  assert (Hnow : master_id <$> jobs db !! id = Some (master_id j))
    by (rewrite Hj; reflexivity).
  destruct req as [ | | |jid jm| | | | | | ];
    try (open_handler; walk;
         try (destruct new_status as [new_status|]; walk);
         try split_update;
         repeat match goal with
                | |- context [match jobs db !! ?i with
                              | Some _ => _ | None => _ end]
                  => destruct (jobs db !! i)
                end;
         cbn [snd jobs with_jobs with_masters];
         try exact Hnow;
         try (destruct (_ =? 0); cbn [snd jobs with_jobs]; try exact Hnow);
         try (rewrite update_job_field; [exact Hnow|];
              intros ?;
              rewrite ?master_set_status, ?master_set_departure,
                ?master_set_arrival; reflexivity);
         rewrite lookup_insert_ne by congruence; exact Hnow).
  unfold Platform.handle, assign_job_to_master.
  destruct (Z.eqb_spec jid id) as [->|Hne]; cbn [andb].
  - destruct (String.eqb (status j) "pending") eqn:Hst.
    + rewrite (update_job_hit _ _ _ _ j Hj Hst).
      cbn [Z.eqb snd jobs with_jobs]. rewrite lookup_insert_eq.
      cbn. rewrite master_set_status, master_set_master. reflexivity.
    + rewrite (update_job_miss _ _ _ _ j Hj Hst). cbn. exact Hnow.
  - split_update. destruct (n =? 0); cbn [snd jobs with_jobs];
      [exact Hnow|].
    rewrite update_job_lookup.
    destruct (decide (id = jid)); [congruence|]. exact Hnow.
Qed.

(** *** Masters and transactions *)

Lemma update_master_phones id b (ms : gmap Z Master) k :
  phone <$> fst (update_master id (set_terminal_active b) ms) !! k
  = phone <$> ms !! k.
Proof.
  unfold update_master. destruct (ms !! id) as [m|] eqn:Hm; [|reflexivity].
  cbn [fst]. destruct (decide (k = id)) as [->|Hne].
  - rewrite lookup_insert_eq, Hm. reflexivity.
  - rewrite lookup_insert_ne by congruence. reflexivity.
Qed.

Lemma phones_unique_by_phones (ms ms' : gmap Z Master) :
  (forall k, phone <$> ms' !! k = phone <$> ms !! k) ->
  (forall i j mi mj, ms !! i = Some mi -> ms !! j = Some mj ->
                     phone mi = phone mj -> i = j) ->
  forall i j mi mj, ms' !! i = Some mi -> ms' !! j = Some mj ->
                    phone mi = phone mj -> i = j.
Proof.
  intros Hsame Hu i j mi mj Hi Hj Hp.
  pose proof (Hsame i) as Hi'. pose proof (Hsame j) as Hj'.
  rewrite Hi in Hi'. rewrite Hj in Hj'.
  destruct (ms !! i) as [ni|] eqn:Hni; [|discriminate].
  destruct (ms !! j) as [nj|] eqn:Hnj; [|discriminate].
  cbn in Hi', Hj'. apply (Hu i j ni nj); congruence.
Qed.

Lemma handle_phones_unique now req db :
  phones_unique db -> phones_unique (snd (handle now req db)).
Proof.
  intros Hu. unfold phones_unique in *.
  destruct req as [m| | | | | | | | | ];
    try (open_handler; walk;
         try (destruct new_status as [new_status|]; walk);
         try split_update;
         repeat match goal with
                | |- context [match jobs db !! ?i with
                              | Some _ => _ | None => _ end]
                  => destruct (jobs db !! i)
                end;
         try (destruct (_ =? 0));
         cbn [snd masters with_jobs with_masters]; exact Hu).
  - unfold Platform.handle, register_master.
    destruct (valid_MasterRegister m); cbn [negb]; [|exact Hu].
    case_bool_decide as Hdup; [exact Hu|].
    cbn [snd masters].
    intros i j mi mj Hi Hj Hp.
    destruct (decide (i = masters_seq db + 1)) as [->|Hi'];
      destruct (decide (j = masters_seq db + 1)) as [->|Hj'];
      rewrite ?lookup_insert_eq in *;
      rewrite ?lookup_insert_ne in * by congruence.
    + reflexivity.
    + exfalso. apply Hdup. exists j, mj. split; [exact Hj|].
      injection Hi as <-. cbn in Hp. congruence.
    + exfalso. apply Hdup. exists i, mi. split; [exact Hi|].
      injection Hj as <-. cbn in Hp. congruence.
    + exact (Hu i j mi mj Hi Hj Hp).
  - unfold Platform.handle, activate_terminal.
    destruct (update_master _ _ _) as [ms n] eqn:E.
    apply (f_equal fst) in E. cbn [fst] in E. subst ms.
    destruct (n =? 0); cbn [snd masters with_masters]; [exact Hu|].
    eapply phones_unique_by_phones; [apply update_master_phones|exact Hu].
  - unfold Platform.handle, update_terminal_status.
    destruct (update_master _ _ _) as [ms n] eqn:E.
    apply (f_equal fst) in E. cbn [fst] in E. subst ms.
    cbn [snd masters with_masters].
    eapply phones_unique_by_phones; [apply update_master_phones|exact Hu].
Qed.

(** X16.  No two masters ever share a phone: a registration whose phone is
    already taken is refused, and no other request writes a phone, so the
    uniqueness holds after any run of requests. *)
Theorem phones_stay_unique reqs db :
  phones_unique db -> phones_unique (run reqs db).
Proof.
  revert db. induction reqs as [|[now req] reqs IH]; intros db Hu;
    [exact Hu|].
  cbn [Platform.run]. apply IH, handle_phones_unique, Hu.
Qed.

(** *** Creating a job *)

(** The base rate of the basic computation is one of four. *)
Lemma basic_rate (category : string) :
  let base_prices : gmap string Z :=
    list_to_map [("electrical", 1500); ("plumbing", 1800);
                 ("appliance", 2000); ("general", 1200)]%string in
  0 <= default 1500 (base_prices !! category) <= 2000.
Proof.
  intros base_prices.
  destruct (base_prices !! category) as [b|] eqn:Hb; cbn [default]; [|lia].
  apply elem_of_list_to_map_2, list_elem_of_In in Hb. cbn [In] in Hb.
  destruct Hb as [H|[H|[H|[H|[]]]]]; injection H as _ <-; unfold id; lia.
Qed.

(** [calculate_pricing] never raises: when the calculator does, the basic
    computation stands in. *)
Lemma calculate_pricing_returns (category description : string) :
  exists price, calculate_pricing category description = inr price.
Proof.
  unfold calculate_pricing.
  destruct (Pricing.estimate_from_description _ _) as [e|q]; [|eauto].
  pose proof (basic_rate category) as Hb. cbv zeta in Hb.
  set (b := default 1500 _) in *. clearbody b.
  assert (Hs : small (Int b)).
  { cbn [small].
    assert (H : 2000 < 10 ^ 305) by (vm_compute; reflexivity).
    revert H. generalize (10 ^ 305). intros; lia. }
  unfold Py.mul.
  destruct (_ || _); destruct (_ >? _);
    cbn [mbind res_bind mret res_ret];
    repeat match goal with
           | |- context [binop ?fz ?ff ?a (Flt ?y)] =>
             let x := fresh "x" in
             let Hx := fresh "Hx" in
             destruct (binop_float_r fz ff a y) as [x Hx];
             [first [exact Hs | exact I]
             | rewrite Hx; cbn [mbind res_bind mret res_ret] ]
           end;
    eauto.
Qed.

(** X17.  A web-form submission that passes validation always creates a
    job: under the next key, with the price [calculate_pricing] returns
    (it never raises), bound to the master the lookup in "Москва" returned
    and "accepted" if there is one, "pending" otherwise, with the contact not
    revealed and no transaction written. *)
Theorem web_form_creates_job now r db :
  valid_ClientRequest r = true ->
  let out := process_client_request find_available_master now r db in
  let found := find_available_master db (cr_category r) "Москва" in
  exists price j,
    calculate_pricing (cr_category r) (cr_problem_description r) = inr price
    /\ fst out = Ok (jobs_seq db + 1, price, found)
    /\ jobs (snd out) !! (jobs_seq db + 1) = Some j
    /\ estimated_price j = sql_real_num price
    /\ master_id j = found
    /\ status j
       = match found with
         | Some m => if m =? 0 then "pending"%string else "accepted"%string
         | None => "pending"%string
         end
    /\ client_phone_revealed j = false
    /\ jobs_seq (snd out) = jobs_seq db + 1
    /\ transactions (snd out) = transactions db
    /\ masters (snd out) = masters db.
Proof.
  intros Hvalid out found. unfold out, process_client_request.
  rewrite Hvalid.
  destruct (calculate_pricing_returns (cr_category r)
              (cr_problem_description r)) as [price Hp].
  rewrite Hp. cbn [negb fst snd jobs jobs_seq transactions masters].
  fold found.
  exists price. eexists. split; [reflexivity|]. split; [reflexivity|].
  split; [apply lookup_insert_eq|].
  cbn [estimated_price master_id status client_phone_revealed].
  repeat split.
  destruct found as [m|]; [|reflexivity].
  destruct (m =? 0); reflexivity.
Qed.

End Steps.

(** *** Departure and the terminal switch *)

Lemma with_jobs_twice db js js' :
  with_jobs (with_jobs db js) js' = with_jobs db js'.
Proof. reflexivity. Qed.

Lemma departure_twice n1 n2 lat1 lon1 url1 lat2 lon2 url2 j :
  set_status "on-the-way"
    (set_departure n2 lat2 lon2 url2
       (set_status "on-the-way" (set_departure n1 lat1 lon1 url1 j)))
  = set_status "on-the-way" (set_departure n2 lat2 lon2 url2 j).
Proof. destruct j; reflexivity. Qed.

(** X18.  A departure is recorded for a job in any status, "completed" and
    "cancelled" included, and sets it to "on-the-way"; a repeated departure
    overwrites the earlier one, as if the earlier one had not happened; and
    for a job that does not exist the handler still answers with success and
    changes nothing.  The reveal flag is not touched. *)
Theorem master_depart_overwrites
    now1 now2 id lat1 lon1 url1 lat2 lon2 url2 db :
  master_depart now2 id lat2 lon2 url2
    (snd (master_depart now1 id lat1 lon1 url1 db))
  = master_depart now2 id lat2 lon2 url2 db
  /\ match jobs db !! id with
     | None => master_depart now1 id lat1 lon1 url1 db = (Ok url1, db)
     | Some j =>
       fst (master_depart now1 id lat1 lon1 url1 db) = Ok url1
       /\ status_of (snd (master_depart now1 id lat1 lon1 url1 db)) id
          = Some "on-the-way"%string
       /\ revealed (snd (master_depart now1 id lat1 lon1 url1 db)) id
          = client_phone_revealed j
     end.
Proof.
  unfold master_depart.
  destruct (jobs db !! id) as [j|] eqn:Hj.
  - rewrite (update_job_hit _ _ _ _ j Hj eq_refl).
    cbn [snd fst jobs with_jobs].
    erewrite update_job_hit; [|apply lookup_insert_eq|reflexivity].
    rewrite departure_twice, insert_insert_eq.
    rewrite (update_job_hit _ _ _ _ j Hj eq_refl).
    split; [reflexivity|]. split; [reflexivity|].
    unfold status_of, revealed, flag. cbn [jobs with_jobs].
    rewrite lookup_insert_eq. split; destruct j; reflexivity.
  - rewrite !(update_job_missing _ _ _ _ Hj). cbn [snd jobs with_jobs].
    rewrite ?(update_job_missing _ _ _ _ Hj).
    rewrite ?with_jobs_same. split; reflexivity.
Qed.

(** X19.  The two ways of switching a terminal on agree for a master that
    exists and differ for one that does not: activation answers 404, while
    the terminal-status update answers with success and changes nothing. *)
Theorem terminal_switch master b db :
  match masters db !! master with
  | Some m =>
    activate_terminal master db
    = (Ok "Терминал активирован"%string,
       with_masters db
         (<[master := set_terminal_active true m]> (masters db)))
    /\ update_terminal_status master b db
       = (Ok b,
          with_masters db
            (<[master := set_terminal_active b m]> (masters db)))
  | None =>
    activate_terminal master db = (HTTPException 404 "Мастер не найден", db)
    /\ update_terminal_status master b db = (Ok b, db)
  end.
Proof.
  unfold activate_terminal, update_terminal_status, update_master.
  destruct (masters db !! master) as [m|].
  - split; reflexivity.
  - cbn. rewrite with_masters_same. split; reflexivity.
Qed.

Lemma failed_request_changes_nothing_witness :
  fst (Platform.handle no_master 10 (AssignJob 1 (Some 7))
         (one_job "accepted" (Some 3))) = false
  /\ snd (Platform.handle no_master 10 (AssignJob 1 (Some 7))
           (one_job "accepted" (Some 3)))
     = one_job "accepted" (Some 3).
Proof.
  split; [reflexivity|].
  apply (failed_request_changes_nothing no_master 10 (AssignJob 1 (Some 7))
           (one_job "accepted" (Some 3))).
  reflexivity.
Defined.

Lemma one_job_issued st m : jobs_issued (one_job st m).
Proof.
  intros k j Hk. cbn [jobs one_job jobs_seq] in *.
  apply lookup_singleton_Some in Hk as [<- _]. lia.
Qed.

Lemma client_record_is_permanent_witness :
  jobs_issued (one_job "pending" None)
  /\ jobs (one_job "pending" None) !! 1 = Some (sample_job "pending" None)
  /\ exists j',
       jobs (Platform.run no_master sample_run (one_job "pending" None)) !! 1
       = Some j'
       /\ client_record j' = client_record (sample_job "pending" None).
Proof.
  split; [apply one_job_issued|]. split; [reflexivity|].
  apply (client_record_is_permanent no_master sample_run
           (one_job "pending" None) 1 (sample_job "pending" None)).
  - apply one_job_issued.
  - reflexivity.
Defined.

Lemma one_job_known : statuses_known (one_job "pending" None).
Proof.
  intros k j Hk. cbn [jobs one_job] in Hk.
  apply lookup_singleton_Some in Hk as [_ <-]. reflexivity.
Qed.

Lemma statuses_stay_known_witness :
  statuses_known (one_job "pending" None)
  /\ statuses_known
       (Platform.run no_master sample_run (one_job "pending" None)).
Proof.
  split; [apply one_job_known|].
  apply (statuses_stay_known no_master sample_run (one_job "pending" None)).
  apply one_job_known.
Defined.

Lemma revealed_only_by_arrival_witness :
  revealed (Platform.run no_master sample_run (one_job "pending" None)) 1
  = true
  /\ (revealed (one_job "pending" None) 1 = true
      \/ exists now, In (now, MasterArrive 1) sample_run).
Proof.
  split; [vm_compute; reflexivity|].
  apply (revealed_only_by_arrival no_master sample_run
           (one_job "pending" None) 1).
  vm_compute; reflexivity.
Defined.

Lemma master_rebound_by_assignment_only_witness :
  jobs_issued (one_job "accepted" (Some 7))
  /\ jobs (one_job "accepted" (Some 7)) !! 1
     = Some (sample_job "accepted" (Some 7))
  /\ master_of
       (snd (Platform.handle no_master 10
               (UpdateJobStatus 1 (Some "pending"%string))
               (one_job "accepted" (Some 7)))) 1
     = Some (Some 7).
Proof.
  split; [apply one_job_issued|]. split; [reflexivity|].
  apply (master_rebound_by_assignment_only no_master 10
           (UpdateJobStatus 1 (Some "pending"%string))
           (one_job "accepted" (Some 7)) 1 (sample_job "accepted" (Some 7))).
  - apply one_job_issued.
  - reflexivity.
Defined.

Lemma empty_phones_unique : phones_unique empty_db.
Proof. intros i j mi mj Hi. cbn in Hi. discriminate Hi. Qed.

Lemma phones_stay_unique_witness :
  phones_unique empty_db
  /\ phones_unique
       (Platform.run no_master
          [(10, RegisterMaster sample_master);
           (20, RegisterMaster sample_master)] empty_db).
Proof.
  split; [apply empty_phones_unique|].
  apply (phones_stay_unique no_master
           [(10, RegisterMaster sample_master);
            (20, RegisterMaster sample_master)] empty_db).
  apply empty_phones_unique.
Defined.

Lemma web_form_creates_job_witness :
  valid_ClientRequest sample_request = true
  /\ exists price j,
       calculate_pricing (cr_category sample_request)
         (cr_problem_description sample_request) = inr price
       /\ fst (process_client_request no_master 10 sample_request empty_db)
          = Ok (1, price, None)
       /\ jobs (snd (process_client_request no_master 10 sample_request
                       empty_db)) !! 1 = Some j
       /\ estimated_price j = sql_real_num price
       /\ master_id j = None
       /\ status j = "pending"%string
       /\ client_phone_revealed j = false
       /\ jobs_seq (snd (process_client_request no_master 10 sample_request
                           empty_db)) = 1
       /\ transactions (snd (process_client_request no_master 10
                               sample_request empty_db)) = []
       /\ masters (snd (process_client_request no_master 10 sample_request
                          empty_db)) = ∅.
Proof.
  split; [vm_compute; reflexivity|].
  apply (web_form_creates_job no_master 10 sample_request empty_db).
  vm_compute; reflexivity.
Defined.

End LifecycleMore.

(** ** Tracking and earnings *)

Module QueriesFacts.
Import Float Py Platform Store Queries LifecycleFacts.
Local Open Scope Z_scope.

(** X20.  Tracking shows what the last departure stored: after a departure
    the job is "on-the-way", marked as departed, with the route and, when the
    latitude is neither missing nor zero, the location; an arrival then
    marks it as arrived and keeps the rest.  A location on the equator is
    reported as no location, and so is one whose latitude is a NaN, which
    the database holds as NULL. *)
Theorem track_after_departure now now' id lat lon url db j :
  jobs db !! id = Some j ->
  let departed := snd (master_depart now id lat lon url db) in
  let place :=
    match lat ≫= sql_real with
    | Some l => if is_zero l then None else Some (l, lon ≫= sql_real)
    | None => None
    end in
  track_master id departed
  = Ok {| tr_status := "on-the-way";
          tr_departed := true;
          tr_arrived :=
            match master_arrived_at j with Some _ => true | None => false end;
          tr_location := place;
          tr_route_url := Some url;
          tr_estimated_price := estimated_price j |}
  /\ track_master id (snd (master_arrive now' id departed))
     = Ok {| tr_status := "arrived";
             tr_departed := true;
             tr_arrived := true;
             tr_location := place;
             tr_route_url := Some url;
             tr_estimated_price := estimated_price j |}.
Proof.
  intros Hj departed place. unfold departed, master_depart.
  rewrite (update_job_hit _ _ _ _ j Hj eq_refl). cbn [snd].
  unfold master_arrive, track_master. cbn [jobs with_jobs].
  rewrite lookup_insert_eq.
  erewrite update_job_hit; [|apply lookup_insert_eq|reflexivity].
  cbn [snd jobs with_jobs]. rewrite lookup_insert_eq.
  destruct j; split; reflexivity.
Qed.

Lemma track_after_departure_witness :
  jobs (one_job "accepted" (Some 7)) !! 1
  = Some (sample_job "accepted" (Some 7))
  /\ tr_location
       <$> (match track_master 1
                    (snd (master_depart 10 1 (Some (of_Z 0)) (Some (of_Z 20)) ""
                            (one_job "accepted" (Some 7)))) with
            | Ok t => Some t
            | HTTPException _ _ => None
            end)
     = Some None.
Proof.
  split; [reflexivity|].
  destruct (track_after_departure 10 20 1 (Some (of_Z 0)) (Some (of_Z 20)) ""
              (one_job "accepted" (Some 7))
              (sample_job "accepted" (Some 7)) eq_refl) as [H _].
  rewrite H. reflexivity.
Defined.

Lemma joined_length db kj :
  length (joined db kj)
  = S (pred (length (transactions_of db (fst kj)))).
Proof.
  unfold joined, transactions_of.
  destruct (filter _ (transactions db)) as [|t ts]; [reflexivity|].
  rewrite length_map. reflexivity.
Qed.

(** X21.  The earnings query counts joined rows, not jobs: the reported
    number of jobs is the number of completed jobs of the master plus one for
    every transaction of such a job beyond its first.  It is the number of
    completed jobs only as long as none was settled twice. *)
Theorem earnings_count_rows sum_real master db :
  total_jobs (get_master_earnings sum_real master db)
  = Z.of_nat
      (length (completed_by master db)
       + sum_list_with
           (fun kj => pred (length (transactions_of db (fst kj))))
           (completed_by master db)).
Proof.
  unfold get_master_earnings. cbn [total_jobs]. f_equal.
  induction (completed_by master db) as [|kj l IH]; [reflexivity|].
  cbn [flat_map sum_list_with length].
  rewrite length_app, joined_length, IH. lia.
Qed.

End QueriesFacts.

(** ** The bots *)

Module BotsFacts.
Import Platform Store Bots LifecycleFacts.
Local Open Scope Z_scope.

Lemma status_after_set s j : status (set_status s j) = s.
Proof. destruct j; reflexivity. Qed.

(** X22.  From the master bot a pending job is taken to "completed" by the
    three buttons accept, start and complete: each is answered with success,
    the job ends bound to the master and completed, and on the way no
    transaction is written and the reveal flag is not touched.  The cancel
    button is then still answered with success. *)
Theorem bot_completes_without_settlement id m db j :
  jobs db !! id = Some j ->
  status j = "pending"%string ->
  let s1 := accept_job id m db in
  let s2 := start_job id (snd s1) in
  let s3 := complete_job id (snd s2) in
  fst s1 = Edited /\ fst s2 = Edited /\ fst s3 = Edited
  /\ status_of (snd s3) id = Some "completed"%string
  /\ master_of (snd s3) id = Some (Some m)
  /\ transactions (snd s3) = transactions db
  /\ revealed (snd s3) id = client_phone_revealed j
  /\ fst (cancel_job id (snd s3)) = Edited
  /\ status_of (snd (cancel_job id (snd s3))) id = Some "cancelled"%string.
Proof.
  intros Hj Hst.
  assert (Hpending : String.eqb (status j) "pending" = true)
    by (rewrite Hst; reflexivity).
  unfold accept_job, assign_job_to_master.
  rewrite (update_job_hit _ _ _ _ j Hj Hpending). cbn [Z.eqb snd fst].
  unfold start_job, complete_job, cancel_job, update_job_status.
  cbn [negb in_list existsb String.eqb Ascii.eqb Bool.eqb orb].
  cbn [jobs with_jobs].
  erewrite update_job_hit; [|apply lookup_insert_eq|reflexivity].
  cbn [snd fst jobs with_jobs]. rewrite insert_insert_eq.
  erewrite update_job_hit; [|apply lookup_insert_eq|reflexivity].
  cbn [snd fst jobs with_jobs]. rewrite insert_insert_eq.
  erewrite update_job_hit; [|apply lookup_insert_eq|reflexivity].
  cbn [snd fst jobs with_jobs]. rewrite insert_insert_eq.
  unfold status_of, master_of, revealed, flag. cbn [jobs with_jobs transactions].
  rewrite !lookup_insert_eq.
  destruct j; repeat split.
Qed.

Lemma bot_completes_without_settlement_witness :
  jobs (one_job "pending" None) !! 1 = Some (sample_job "pending" None)
  /\ status (sample_job "pending" None) = "pending"%string
  /\ status_of
       (snd (complete_job 1
               (snd (start_job 1
                       (snd (accept_job 1 7 (one_job "pending" None))))))) 1
     = Some "completed"%string
  /\ transactions
       (snd (complete_job 1
               (snd (start_job 1
                       (snd (accept_job 1 7 (one_job "pending" None)))))))
     = [].
Proof.
  split; [reflexivity|]. split; [reflexivity|].
  destruct (bot_completes_without_settlement 1 7 (one_job "pending" None)
              (sample_job "pending" None) eq_refl eq_refl)
    as (_ & _ & _ & Hs & _ & Ht & _).
  split; [exact Hs|exact Ht].
Defined.

(** *** The conversation of the client bot *)

Lemma categories_lookup text c :
  CATEGORIES !! text = Some c -> In c api_categories.
Proof.
  intros H. unfold CATEGORIES in H.
  apply elem_of_list_to_map_2 in H.
  apply list_elem_of_In in H. cbn [In] in H.
  destruct H as [H|[H|[H|[H|[]]]]]; injection H as _ <-; cbn; tauto.
Qed.

Lemma dispatch_checked st text d :
  checked st d ->
  checked (fst (fst (dispatch st text d))) (snd (fst (dispatch st text d)))
  /\ forall r, snd (dispatch st text d) = Some r -> well_formed r.
Proof.
  intros Hc. destruct st; cbn [dispatch fst snd].
  - split; [|discriminate]. destruct d; exact I.
  - split; [|discriminate]. unfold get_phone.
    destruct (bot_phone_ok text) eqn:Hp; cbn [negb]; [|exact I].
    destruct d. cbn. intros p [= <-]. exact Hp.
  - split; [|discriminate]. unfold get_category.
    destruct (CATEGORIES !! text) as [c|] eqn:Hl; [|exact Hc].
    destruct d. cbn in *. split; [exact Hc|].
    intros c' [= <-]. exact (categories_lookup _ _ Hl).
  - split; [|discriminate]. unfold get_problem.
    destruct (Z.ltb_spec (chars text) 10) as [Hlt|Hge]; [exact Hc|].
    destruct d. cbn in *. destruct Hc as [Hp Hcat].
    split; [exact Hp|]. split; [exact Hcat|].
    intros t [= <-]. exact Hge.
  - split; [|discriminate]. unfold get_address.
    destruct (Z.ltb_spec (chars text) 5) as [Hlt|Hge]; [exact Hc|].
    destruct d. cbn in *. destruct Hc as (Hp & Hcat & Hpr).
    split; [exact Hp|]. split; [exact Hcat|]. split; [exact Hpr|].
    intros a [= <-]. exact Hge.
  - split; [exact I|]. intros r. unfold confirm.
    destruct (negb _); [discriminate|].
    destruct d as [n p c cn pr a]. cbn in *.
    destruct Hc as (Hp & Hcat & Hpr & Ha).
    destruct n as [n|]; [|discriminate].
    destruct p as [p|]; [|discriminate].
    destruct c as [c|]; [|discriminate].
    destruct pr as [pr|]; [|discriminate].
    destruct a as [a|]; [|discriminate].
    cbn. intros [= <-]. unfold well_formed. cbn.
    repeat split; auto.
  - split; [exact I|discriminate].
Qed.

Lemma converse_END d texts : converse END d texts = [].
Proof. induction texts as [|t texts IH]; [reflexivity|exact IH]. Qed.

Lemma converse_checked texts st d :
  checked st d ->
  Forall well_formed (converse st d texts)
  /\ (length (converse st d texts) <= 1)%nat.
Proof.
  revert st d. induction texts as [|text texts IH]; intros st d Hc.
  - split; [constructor|cbn; lia].
  - cbn [converse].
    destruct (dispatch_checked st text d Hc) as [Hnext Hposted].
    destruct (dispatch st text d) as [[st' d'] posted] eqn:E.
    cbn [fst snd] in *.
    destruct posted as [r|].
    + assert (st' = END) as ->.
      { destruct st; cbn in E; try discriminate E;
          injection E as <- _ _; reflexivity. }
      rewrite converse_END. split; [|cbn; lia].
      constructor; [apply Hposted; reflexivity|constructor].
    + apply IH, Hnext.
Qed.

(** X23.  Whatever the user types and whatever data an earlier conversation
    left behind, a conversation with the client bot posts at most one
    request to the web form, and a request it posts has a phone of twelve
    characters starting with "+7", one of the four categories of the API, a
    description of at least ten characters and an address of at least five.
    The name is not checked by the bot. *)
Theorem conversation_posts_checked (d : user_data) (texts : list string) :
  Forall well_formed (converse NAME d texts)
  /\ (length (converse NAME d texts) <= 1)%nat.
Proof. apply converse_checked. exact I. Qed.

Lemma utf8_decode_ascii bs :
  forallb (fun b => (b <? 128)%N) bs = true -> Text.utf8_decode bs = bs.
Proof.
  induction bs as [|b bs IH]; [reflexivity|].
  cbn [forallb]. intros H. apply andb_prop in H as [Hb Hbs].
  cbn [Text.utf8_decode]. rewrite Hb, (IH Hbs). reflexivity.
Qed.

Lemma digits_ascii ds :
  forallb is_digit ds = true -> forallb (fun b => (b <? 128)%N) ds = true.
Proof.
  induction ds as [|b ds IH]; [reflexivity|].
  cbn [forallb]. intros H. apply andb_prop in H as [Hb Hds].
  rewrite (IH Hds), andb_true_r.
  unfold is_digit in Hb. apply andb_prop in Hb as [_ Hb].
  apply N.leb_le in Hb. apply N.ltb_lt. lia.
Qed.

(** A phone the bot accepts passes the pattern of the API exactly when every
    byte after the first is an ASCII digit. *)
Lemma bot_phone_meets_api p :
  bot_phone_ok p = true ->
  phone_ok p = forallb is_digit (tail (Text.bytes_of_string p)).
Proof.
  unfold bot_phone_ok, phone_ok, chars, Text.len, Text.of_string.
  set (bs := Text.bytes_of_string p).
  change (Text.bytes_of_string "+7") with [43%N; 55%N].
  change (Text.utf8_decode [43%N; 55%N]) with [43%N; 55%N].
  intros H. apply andb_prop in H as [Hstart Hlen].
  apply Z.eqb_eq in Hlen.
  destruct bs as [|b0 ds]; [discriminate Hstart|]. cbn [tail].
  destruct (forallb is_digit ds) eqn:Hd.
  - pose proof (digits_ascii ds Hd) as Hascii.
    destruct (b0 <? 128)%N eqn:Hb0.
    + rewrite utf8_decode_ascii in Hstart, Hlen
        by (cbn [forallb]; rewrite Hb0, Hascii; reflexivity).
      cbn [Text.starts_with] in Hstart.
      apply andb_prop in Hstart as [H43 _]. apply N.eqb_eq in H43. subst b0.
      cbn [length] in Hlen. cbn [andb].
      apply andb_true_intro. split; [apply Z.leb_le|apply Z.leb_le]; lia.
    + exfalso. cbn [Text.utf8_decode] in Hstart. rewrite Hb0 in Hstart.
      apply N.ltb_ge in Hb0.
      destruct ds as [|b1 r1]; [discriminate Hstart|].
      cbn [forallb] in Hd. apply andb_prop in Hd as [Hb1 Hd].
      unfold is_digit in Hb1. apply andb_prop in Hb1 as [_ Hb1].
      apply N.leb_le in Hb1.
      destruct (b0 <? 224)%N.
      { cbn [Text.starts_with] in Hstart.
        apply andb_prop in Hstart as [H43 _]. apply N.eqb_eq in H43. lia. }
      destruct r1 as [|b2 r2]; [discriminate Hstart|].
      cbn [forallb] in Hd. apply andb_prop in Hd as [Hb2 Hd].
      unfold is_digit in Hb2. apply andb_prop in Hb2 as [_ Hb2].
      apply N.leb_le in Hb2.
      destruct (b0 <? 240)%N.
      { cbn [Text.starts_with] in Hstart.
        apply andb_prop in Hstart as [H43 _]. apply N.eqb_eq in H43. lia. }
      destruct r2 as [|b3 r3]; [discriminate Hstart|].
      cbn [forallb] in Hd. apply andb_prop in Hd as [Hb3 Hd].
      unfold is_digit in Hb3. apply andb_prop in Hb3 as [_ Hb3].
      apply N.leb_le in Hb3.
      cbn [Text.starts_with] in Hstart.
      apply andb_prop in Hstart as [H43 _]. apply N.eqb_eq in H43. lia.
  - destruct b0 as [|b0]; [reflexivity|].
    repeat (destruct b0 as [b0|b0|]; try reflexivity).
Qed.

(** X24.  The checks of the bot cover the web form's checks of the phone
    length, the description and the address: a request the bot posts passes
    the validation of the web form as soon as its name has between 2 and 100
    characters and every byte of the phone after the first is an ASCII
    digit.  The name and the digits are what the bot leaves unchecked. *)
Theorem posted_request_validity (r : ClientRequest) :
  well_formed r ->
  2 <= chars (cr_name r) <= 100 ->
  forallb is_digit (tail (Text.bytes_of_string (cr_phone r))) = true ->
  valid_ClientRequest r = true.
Proof.
  intros (Hp & _ & Hpr & Ha) [Hn1 Hn2] Hd. unfold valid_ClientRequest.
  rewrite (bot_phone_meets_api _ Hp), Hd.
  apply Z.leb_le in Hpr, Ha, Hn1, Hn2. rewrite Hpr, Ha, Hn1, Hn2.
  reflexivity.
Qed.

Lemma posted_request_validity_witness :
  well_formed Invariants.sample_request
  /\ 2 <= chars (cr_name Invariants.sample_request) <= 100
  /\ forallb is_digit
       (tail (Text.bytes_of_string (cr_phone Invariants.sample_request)))
     = true
  /\ valid_ClientRequest Invariants.sample_request = true.
Proof.
  assert (H : well_formed Invariants.sample_request).
  { unfold well_formed. repeat split; try (vm_compute; reflexivity).
    - cbn. tauto.
    - vm_compute. discriminate.
    - vm_compute. discriminate. }
  assert (Hn : 2 <= chars (cr_name Invariants.sample_request) <= 100)
    by (vm_compute; split; discriminate).
  assert (Hd : forallb is_digit
                 (tail (Text.bytes_of_string
                          (cr_phone Invariants.sample_request))) = true)
    by (vm_compute; reflexivity).
  split; [exact H|]. split; [exact Hn|]. split; [exact Hd|].
  exact (posted_request_validity Invariants.sample_request H Hn Hd).
Defined.

End BotsFacts.
